(** * Reservation eligibility and collision checks of the club reservation
      backend, embedded from the Python sources

    The development follows the source tree:
    - [Schemas]       : [schemas/calendar.py], [schemas/event.py],
                        [schemas/user.py], [schemas/data_is.py], [models/event.py]
    - [ServicesUtils] : [services/utils.py]
    - [EventService]  : [services/event_services.py]
    - [ApiUtils]      : [api/utils.py]
    - [ApiEvents]     : [api/events.py] ([create_event])
    - [Models], [EventLifecycle] : [models/event.py], [crud/crud_base.py],
                        [crud/crud_event.py], [services/service_base.py] and
                        the state-changing methods of
                        [services/event_services.py]

    Conventions.
    - A naive [datetime] is the number of microseconds since
      0001-01-01T00:00:00 on its own wall clock; a [timedelta] is a number
      of microseconds.  Comparison, subtraction and [abs] of Python are
      then the ones of [Z] (Python's naive arithmetic is exact and ignores
      daylight saving).  Thresholds are taken inside the range of Python's
      [timedelta].
    - A timezone-aware datetime is an [instant]: microseconds on the UTC
      time line; [==] on aware datetimes compares instants.
    - [dt.datetime.now()] reads a clock.  The clock is threaded as a state:
      a [Clock] is the sequence of the readings still to come.
    - The truth values returned by the collision checks are the ones of
      the code: [true] means "free, go on", [false] means "there is
      already a reservation". *)

From Stdlib Require Import String ZArith List Bool Lia Permutation.
Import ListNotations.
Open Scope Z_scope.

(** ** Time *)

Definition datetime := Z.
Definition timedelta := Z.
Definition instant := Z.

Definition us_per_second : Z := 1000000.
Definition us_per_minute : Z := 60 * us_per_second.
Definition us_per_hour : Z := 60 * us_per_minute.
Definition us_per_day : Z := 24 * us_per_hour.

(** [dt.timedelta(days=d, hours=h, minutes=m)] *)
Definition mk_timedelta (d h m : Z) : timedelta :=
  d * us_per_day + h * us_per_hour + m * us_per_minute.

(** [x.time()]: the time of day of a naive datetime. *)
Definition time_of (x : datetime) : Z := x mod us_per_day.

(** [dt.datetime.strptime('HH:MM:SS', '%H:%M:%S').time()] *)
Definition strptime_time (h m s : Z) : Z :=
  h * us_per_hour + m * us_per_minute + s * us_per_second.

(** A naive datetime given by its day number and its time of day. *)
Definition at_day (day h m : Z) : datetime :=
  day * us_per_day + strptime_time h m 0.

(** ** The clock *)

Definition Clock := nat -> datetime.

Definition Clocked (A : Type) : Type := Clock -> A * Clock.

Definition ret {A} (a : A) : Clocked A := fun c => (a, c).

Definition bind {A B} (m : Clocked A) (k : A -> Clocked B) : Clocked B :=
  fun c => let (a, c') := m c in k a c'.

(** [dt.datetime.now()]: the next reading; the clock moves on. *)
Definition datetime_now : Clocked datetime :=
  fun c => (c 0%nat, fun n => c (S n)).

Notation "x <- m ;; k" := (bind m (fun x => k))
  (at level 61, m at next level, right associativity).

(** ** Schemas *)

Module Schemas.

(** [class Rules(BaseModel)] of [schemas/calendar.py]. *)
Record Rules := mkRules {
  night_time : bool;
  reservation_without_permission : bool;
  max_reservation_hours : Z;
  in_advance_hours : Z;
  in_advance_minutes : Z;
  in_prior_days : Z
}.

(** One entry of pydantic's [ValidationError]: the field whose
    constraint [ge=0] is violated. *)
Inductive ErrorDetails := greater_than_equal (loc : string).

(** [Field(ge=0)] on the field [loc]. *)
Definition field_ge0 (loc : string) (v : Z) : list ErrorDetails :=
  if v <? 0 then [greater_than_equal loc] else [].

(** The validation that [Rules(...)] runs: every field is validated and
    all the errors are collected, in the order of the declaration. *)
Definition Rules_errors (mrh iah iam ipd : Z) : list ErrorDetails :=
  field_ge0 "max_reservation_hours" mrh
  ++ field_ge0 "in_advance_hours" iah
  ++ field_ge0 "in_advance_minutes" iam
  ++ field_ge0 "in_prior_days" ipd.

(** [Rules(night_time=.., .., in_prior_days=..)]: the instance, or the
    [ValidationError] that is raised. *)
Definition Rules_init (nt rwp : bool) (mrh iah iam ipd : Z)
  : list ErrorDetails + Rules :=
  match Rules_errors mrh iah iam ipd with
  | [] => inr (mkRules nt rwp mrh iah iam ipd)
  | errs => inl errs
  end.

(** [class Calendar(CalendarInDBBase)]; the fields read by the checks.
    The reservation service that
    [reservation_service_crud.get(calendar.reservation_service_id)]
    returns is passed along with the calendar. *)
Record Calendar := mkCalendar {
  id : string;
  reservation_type : string;
  max_people : Z;
  more_than_max_people_with_permission : option bool;
  collision_with_itself : bool;
  collision_with_calendar : list string;
  club_member_rules : Rules;
  active_member_rules : Rules;
  manager_rules : Rules
}.

(** The object after [calendar.collision_with_calendar] was mutated. *)
Definition set_collision_with_calendar (c : Calendar) (l : list string)
  : Calendar :=
  mkCalendar (id c) (reservation_type c) (max_people c)
             (more_than_max_people_with_permission c)
             (collision_with_itself c) l
             (club_member_rules c) (active_member_rules c) (manager_rules c).

(** [class ReservationService]: its alias and its name. *)
Record ReservationService := mkReservationService {
  alias : string;
  name : string
}.

(** [class ServiceValidity]: [service.service.alias]. *)
Record ServiceValidity := mkServiceValidity {
  service_alias : string
}.

(** [class User]: the fields read by the checks; [roles] is the list of
    the roles of a user whose role data is present. *)
Record User := mkUser {
  active_member : bool;
  roles : list string
}.

(** [class EventCreate]: the fields read by the checks. *)
Record EventCreate := mkEventCreate {
  start_datetime : datetime;
  end_datetime : datetime;
  guests : Z
}.

(** [class EventState(Enum)] of [models/event.py]. *)
Inductive EventState := NOT_APPROVED | UPDATE_REQUESTED | CONFIRMED | CANCELED.

(** An item of the Google Calendar listing.  [start_dateTime] is
    [item['start']['dateTime']]: a timed event carries it, an all-day
    event does not. *)
Record GoogleEvent := mkGoogleEvent {
  start_dateTime : option instant;
  end_dateTime : option instant
}.

(** Python's truth value of an optional boolean ([None] is false). *)
Definition truthy (b : option bool) : bool :=
  match b with Some true => true | _ => false end.

End Schemas.

(** ** [services/utils.py] *)

Module ServicesUtils.
Import Schemas.

(** The dictionaries [{"message": ...}] returned by the checks.  The
    values that the f-strings interpolate are kept as arguments. *)
Inductive Message :=
| NoService (service_alias : string)
    (* You don't have {alias} service! *)
| BeforePresent
    (* You can't make a reservation before the present time! *)
| EndBeforeBeginning
    (* The end of a reservation cannot be before its beginning! *)
| TooManyPeople (max_people : Z)
    (* You can't reserve this type of reservation for more than {n} people! *)
| DifferentDay
    (* You can reserve on different day. *)
| InAdvance (hours minutes : Z)
    (* You have to make reservations {h} hours and {m} minutes in advance! *)
| PriorDays (days : Z)
    (* You can't make reservations earlier than {d} days in advance! *)
| CalendarNotExist.
    (* Calendar with that type not exist! *)

(** What a check returns: the string ["Access"] or a message. *)
Inductive Verdict := Access | Denied (m : Message).

Fixpoint service_availability_check (services : list ServiceValidity)
         (service_alias' : string) : bool :=
  match services with
  | [] => false
  | service :: rest =>
      if String.eqb (service_alias service) service_alias' then true
      else service_availability_check rest service_alias'
  end.

Definition first_standard_check (services : list ServiceValidity)
           (reservation_service : ReservationService)
           (start_time end_time : datetime) : Clocked Verdict :=
  if negb (service_availability_check services (alias reservation_service))
  then ret (Denied (NoService (alias reservation_service)))
  else
    now <- datetime_now ;;
    if start_time <? now then ret (Denied BeforePresent)
    else if end_time <? start_time then ret (Denied EndBeforeBeginning)
    else ret Access.

Definition control_res_in_advance_or_prior (start_time : datetime)
           (user_rules : Rules) (in_advance : bool) : Clocked bool :=
  current_time <- datetime_now ;;
  let time_difference := Z.abs (start_time - current_time) in
  if in_advance then
    if time_difference <?
       mk_timedelta 0 (in_advance_hours user_rules) (in_advance_minutes user_rules)
    then ret false else ret true
  else
    if time_difference >? mk_timedelta (in_prior_days user_rules) 0 0
    then ret false else ret true.

Definition reservation_in_advance (start_time : datetime) (user_rules : Rules)
  : Clocked Verdict :=
  ok_advance <- control_res_in_advance_or_prior start_time user_rules true ;;
  if negb ok_advance
  then ret (Denied (InAdvance (in_advance_hours user_rules)
                              (in_advance_minutes user_rules)))
  else
    ok_prior <- control_res_in_advance_or_prior start_time user_rules false ;;
    if negb ok_prior
    then ret (Denied (PriorDays (in_prior_days user_rules)))
    else ret Access.

Definition dif_days_res (start_datetime end_datetime : datetime)
           (user_rules : Rules) : bool :=
  let time_difference := Z.abs (end_datetime - start_datetime) in
  if time_difference >? mk_timedelta 0 (max_reservation_hours user_rules) 0
  then false else true.

End ServicesUtils.

(** ** [services/event_services.py] *)

Module EventService.
Import Schemas ServicesUtils.

Definition string_in (s : string) (l : list string) : bool :=
  existsb (String.eqb s) l.

(** [__choose_user_rules] *)
Definition choose_user_rules (user : User) (calendar : Calendar)
           (reservation_service : ReservationService) : Rules :=
  if negb (active_member user) then club_member_rules calendar
  else if string_in (alias reservation_service) (roles user)
       then manager_rules calendar
       else active_member_rules calendar.

(** [__control_conditions_and_permissions] *)
Definition control_conditions_and_permissions (user : User)
           (services : list ServiceValidity) (event_input : EventCreate)
           (calendar : Calendar) (reservation_service : ReservationService)
  : Clocked Verdict :=
  standard_message <-
    first_standard_check services reservation_service
                         (start_datetime event_input) (end_datetime event_input) ;;
  match standard_message with
  | Denied _ => ret standard_message
  | Access =>
      if negb (truthy (more_than_max_people_with_permission calendar))
         && (guests event_input >? max_people calendar)
      then ret (Denied (TooManyPeople (max_people calendar)))
      else
        let user_rules := choose_user_rules user calendar reservation_service in
        if negb (dif_days_res (start_datetime event_input)
                              (end_datetime event_input) user_rules)
        then ret (Denied DifferentDay)
        else
          message <- reservation_in_advance (start_datetime event_input) user_rules ;;
          match message with
          | Denied _ => ret message
          | Access => ret Access
          end
  end.

(** What [post_event] returns: a message, or the body that
    [ready_event] builds (a dictionary of five keys, so never taken
    for a message by the caller). *)
Inductive EventBody := BodyMessage (m : Message) | Body (summary : string).

Definition post_event (event_input : EventCreate)
           (services : list ServiceValidity) (user : User)
           (calendar : option Calendar) (reservation_service : ReservationService)
  : Clocked EventBody :=
  match calendar with
  | None => ret (BodyMessage CalendarNotExist)
  | Some calendar =>
      message <- control_conditions_and_permissions
                   user services event_input calendar reservation_service ;;
      match message with
      | Denied m => ret (BodyMessage m)
      | Access => ret (Body (reservation_type calendar))
      end
  end.

End EventService.

(** ** [api/utils.py] *)

Module ApiUtils.
Import Schemas.

(** Exceptions that the collision check can raise. *)
Inductive Exn := KeyError | IndexError.

Inductive Result (A : Type) := Returns (a : A) | Raises (e : Exn).
Arguments Returns {A} a.
Arguments Raises {A} e.

(** The Google Calendar service, as the checks use it:
    [service.events().list(calendarId=.., timeMin=.., timeMax=..,
    singleEvents=True, orderBy='startTime').execute().get('items', [])]. *)
Definition GoogleCalendarService : Type :=
  string -> instant -> instant -> list GoogleEvent.

Section Zones.

(** [timezone("Europe/Prague").localize(x)]: the naive [x] read on the
    wall clock of Prague. *)
Variable localize : datetime -> instant.

(** [x.astimezone(timezone('Europe/Prague'))] for a naive [x]: Python
    reads [x] on the wall clock of the zone of the server. *)
Variable astimezone : datetime -> instant.

Definition get_events (service : GoogleCalendarService)
           (start_time end_time : datetime) (calendar_id : string)
  : list GoogleEvent :=
  service calendar_id (localize start_time) (localize end_time).

Definition check_collision_time (check_collision : list GoogleEvent)
           (start_datetime end_datetime : datetime) (calendar : Calendar)
           (google_calendar_service : GoogleCalendarService) : Result bool :=
  if negb (collision_with_itself calendar)
     && (Z.of_nat (length (get_events google_calendar_service
                                      start_datetime end_datetime (id calendar)))
         >? max_people calendar)
  then Returns false
  else if (length check_collision =? 0)%nat then Returns true
  else if (1 <? length check_collision)%nat then Returns false
  else
    match nth_error check_collision 0 with
    | None => Raises IndexError
    | Some event =>
        match start_dateTime event, end_dateTime event with
        | Some start_date_event, Some end_date_event =>
            if (end_date_event =? astimezone start_datetime)
               || (start_date_event =? astimezone end_datetime)
            then Returns true
            else Returns false
        | _, _ => Raises KeyError
        end
    end.

(** The loop [for calendar_id in collisions: check_collision.extend(..)]. *)
Definition extend_events (service : GoogleCalendarService)
           (start_time end_time : datetime) (collisions : list string)
  : list GoogleEvent :=
  fold_left (fun check_collision calendar_id =>
               check_collision ++ get_events service start_time end_time calendar_id)
            collisions [].

(** [collisions] is the list object of the calendar itself, so
    [collisions.append(calendar.id)] changes the calendar: the second
    component is the calendar object after the call. *)
Definition control_collision (google_calendar_service : GoogleCalendarService)
           (event_input : EventCreate) (calendar : option Calendar)
  : Result bool * option Calendar :=
  match calendar with
  | None => (Returns false, None)
  | Some calendar =>
      let collisions := collision_with_calendar calendar ++ [id calendar] in
      let calendar := set_collision_with_calendar calendar collisions in
      let check_collision :=
        match collision_with_calendar calendar with
        | [] => []
        | _ :: _ =>
            extend_events google_calendar_service
                          (start_datetime event_input) (end_datetime event_input)
                          collisions
        end in
      (match check_collision_time check_collision
                                  (start_datetime event_input)
                                  (end_datetime event_input)
                                  calendar google_calendar_service with
       | Returns false => Returns false
       | Returns true => Returns true
       | Raises e => Raises e
       end, Some calendar)
  end.

End Zones.

Definition check_night_reservation (user : User) : bool :=
  if negb (active_member user) then false else true.

Definition control_available_reservation_time
           (start_datetime end_datetime : datetime) : bool :=
  let start_time := time_of start_datetime in
  let end_time := time_of end_datetime in
  let start_res_time := strptime_time 8 0 0 in
  let end_res_time := strptime_time 22 0 0 in
  if (start_time <? start_res_time) || (end_time <? start_res_time)
     || (end_time >? end_res_time)
  then false else true.

End ApiUtils.

(** ** [api/events.py]: [create_event] *)

Module ApiEvents.
Import Schemas ServicesUtils EventService ApiUtils.

(** [event_body["summary"]] of the event sent to Google. *)
Inductive Summary :=
| ReservationType (reservation_type : string)
| NotApprovedPeople (max_people : Z)   (* Not approved - more than {n} people *)
| NotApprovedNight.                    (* Not approved - night time *)

(** What [create_event] does to its collaborators, in order. *)
Inductive Effect :=
| GoogleInsert (calendarId : string) (summary : Summary)
| ServiceCreateEvent (event_state : EventState) (calendar_id : string)
| PreparingEmail (template : string).

(** How [create_event] ends. *)
Inductive Response :=
| RaiseEntityNotFound
| RaiseExn (e : Exn)
| AlreadyReservation     (* 200: There's already a reservation for that time. *)
| EventBodyMessage (m : Message)                     (* 200: content=event_body *)
| MoreThanPeople (max_people : Z)                    (* more than {n} people *)
| NightTime                                          (* Night time *)
| EventGoogleCalendar.                               (* the inserted event *)

Record Outcome := mkOutcome {
  response : Response;
  effects : list Effect;
  calendar_after : option Calendar
}.

Section Zones.
Variable localize : datetime -> instant.
Variable astimezone : datetime -> instant.

(** [services] is the answer of the information system to
    [/services/mine]; [calendar] is what
    [calendar_service.get_by_reservation_type] found. *)
Definition create_event (google_calendar_service : GoogleCalendarService)
           (services : list ServiceValidity) (user : User)
           (event_create : EventCreate) (calendar : option Calendar)
           (reservation_service : ReservationService) : Clocked Outcome :=
  match calendar with
  | None => ret (mkOutcome RaiseEntityNotFound [] None)
  | Some calendar0 =>
      let (free, mutated) :=
        control_collision localize astimezone
                          google_calendar_service event_create calendar in
      (* the same object, after the call *)
      let calendar := match mutated with Some c => c | None => calendar0 end in
      match free with
      | Raises e => ret (mkOutcome (RaiseExn e) [] (Some calendar))
      | Returns false => ret (mkOutcome AlreadyReservation [] (Some calendar))
      | Returns true =>
          event_body <- post_event event_create services user (Some calendar)
                                   reservation_service ;;
          match event_body with
          | BodyMessage m =>
              ret (mkOutcome (EventBodyMessage m) [] (Some calendar))
          | Body _ =>
              if guests event_create >? max_people calendar then
                ret (mkOutcome (MoreThanPeople (max_people calendar))
                       [GoogleInsert (id calendar)
                                     (NotApprovedPeople (max_people calendar));
                        ServiceCreateEvent NOT_APPROVED (id calendar)]
                       (Some calendar))
              else if negb (check_night_reservation user)
                      && negb (control_available_reservation_time
                                 (start_datetime event_create)
                                 (end_datetime event_create))
              then
                ret (mkOutcome NightTime
                       [GoogleInsert (id calendar) NotApprovedNight;
                        ServiceCreateEvent NOT_APPROVED (id calendar);
                        PreparingEmail "not_approve_night_time_reservation"]
                       (Some calendar))
              else
                ret (mkOutcome EventGoogleCalendar
                       [GoogleInsert (id calendar)
                                     (ReservationType (reservation_type calendar));
                        ServiceCreateEvent CONFIRMED (id calendar);
                        PreparingEmail "confirm_reservation"]
                       (Some calendar))
          end
      end
  end.

End Zones.

End ApiEvents.

(** ** The vocabulary of the specification *)

Module Spec.
Import Schemas ServicesUtils EventService ApiUtils ApiEvents.

(** The reasons of a denial, and the message of the code that stands
    for each. *)
Inductive Reason :=
| MissingEntitlement
| InvalidInterval
| OverCapacity
| ExceedsMaxDuration
| InsufficientAdvanceNotice
| TooFarInAdvance
| UnknownCalendar.

Definition reason_of (m : Message) : Reason :=
  match m with
  | NoService _ => MissingEntitlement
  | BeforePresent => InvalidInterval
  | EndBeforeBeginning => InvalidInterval
  | TooManyPeople _ => OverCapacity
  | DifferentDay => ExceedsMaxDuration
  | InAdvance _ _ => InsufficientAdvanceNotice
  | PriorDays _ => TooFarInAdvance
  | CalendarNotExist => UnknownCalendar
  end.

(** The terminal outcomes of the booking pipeline. *)
Inductive Decision :=
| Rejected (r : Reason)
| FlaggedOverCapacity
| FlaggedNightTime
| Confirmed
| AlreadyBooked
| Failure.

Definition decision_of (r : Response) : Decision :=
  match r with
  | RaiseEntityNotFound => Failure
  | RaiseExn _ => Failure
  | AlreadyReservation => AlreadyBooked
  | EventBodyMessage m => Rejected (reason_of m)
  | MoreThanPeople _ => FlaggedOverCapacity
  | NightTime => FlaggedNightTime
  | EventGoogleCalendar => Confirmed
  end.

(** The state in which the booking was stored, if one was. *)
Fixpoint created_state (effects : list Effect) : option EventState :=
  match effects with
  | [] => None
  | ServiceCreateEvent s _ :: _ => Some s
  | _ :: rest => created_state rest
  end.

(** A chain of checks, each with the message of its failure: the
    verdict is the message of the first check that fails. *)
Fixpoint first_failure (checks : list (bool * Message)) : Verdict :=
  match checks with
  | [] => Access
  | (fails, m) :: rest => if fails then Denied m else first_failure rest
  end.

(** The checks of the eligibility evaluator in the order of the
    specification; [now_sanity], [now_advance] and [now_prior] are the
    readings of the clock taken by the three checks that look at it. *)
Definition eligibility_checks (user : User) (services : list ServiceValidity)
           (event_input : EventCreate) (calendar : Calendar)
           (reservation_service : ReservationService)
           (now_sanity now_advance now_prior : datetime)
  : list (bool * Message) :=
  let rules := choose_user_rules user calendar reservation_service in
  let start := start_datetime event_input in
  let end' := end_datetime event_input in
  [ (* membership / service entitlement *)
    (negb (service_availability_check services (alias reservation_service)),
     NoService (alias reservation_service));
    (* temporal sanity *)
    (start <? now_sanity, BeforePresent);
    (end' <? start, EndBeforeBeginning);
    (* capacity *)
    (negb (truthy (more_than_max_people_with_permission calendar))
     && (guests event_input >? max_people calendar),
     TooManyPeople (max_people calendar));
    (* maximum duration *)
    (Z.abs (end' - start) >? mk_timedelta 0 (max_reservation_hours rules) 0,
     DifferentDay);
    (* advance notice *)
    (Z.abs (start - now_advance)
     <? mk_timedelta 0 (in_advance_hours rules) (in_advance_minutes rules),
     InAdvance (in_advance_hours rules) (in_advance_minutes rules));
    (* prior-booking window *)
    (Z.abs (start - now_prior) >? mk_timedelta (in_prior_days rules) 0 0,
     PriorDays (in_prior_days rules)) ].

(** The clock after [k] more readings. *)
Definition later (k : nat) (c : Clock) : Clock := fun n => c (k + n)%nat.

(** The number of checks that have looked at the clock when the
    evaluator stops with a given verdict. *)
Definition readings_taken (v : Verdict) : nat :=
  match v with
  | Denied (NoService _) => 0
  | Denied CalendarNotExist => 0
  | Denied BeforePresent => 1
  | Denied EndBeforeBeginning => 1
  | Denied (TooManyPeople _) => 1
  | Denied DifferentDay => 1
  | Denied (InAdvance _ _) => 2
  | Denied (PriorDays _) => 3
  | Access => 3
  end.

Section Zones.
Variable localize : datetime -> instant.
Variable astimezone : datetime -> instant.

(** The set [C] of the collision detector: the events, in the
    requested window, of the colliding calendars and of the calendar
    itself. *)
Definition gathered (service : GoogleCalendarService)
           (event_input : EventCreate) (calendar : Calendar)
  : list GoogleEvent :=
  flat_map (get_events localize service
                       (start_datetime event_input) (end_datetime event_input))
           (collision_with_calendar calendar ++ [id calendar]).

(** The self-overlap capacity branch of [check_collision_time]. *)
Definition self_branch_fires (service : GoogleCalendarService)
           (event_input : EventCreate) (calendar : Calendar) : bool :=
  negb (collision_with_itself calendar)
  && (Z.of_nat (length (get_events localize service
                                   (start_datetime event_input)
                                   (end_datetime event_input) (id calendar)))
      >? max_people calendar).

(** [check_collision_time] with the self-overlap capacity branch
    taken out. *)
Definition check_collision_time_without_self_branch
           (check_collision : list GoogleEvent)
           (start_datetime end_datetime : datetime) : Result bool :=
  if (length check_collision =? 0)%nat then Returns true
  else if (1 <? length check_collision)%nat then Returns false
  else
    match nth_error check_collision 0 with
    | None => Raises IndexError
    | Some event =>
        match start_dateTime event, end_dateTime event with
        | Some start_date_event, Some end_date_event =>
            if (end_date_event =? astimezone start_datetime)
               || (start_date_event =? astimezone end_datetime)
            then Returns true
            else Returns false
        | _, _ => Raises KeyError
        end
    end.

(** [control_collision] calling that variant. *)
Definition control_collision_without_self_branch
           (google_calendar_service : GoogleCalendarService)
           (event_input : EventCreate) (calendar : option Calendar)
  : Result bool * option Calendar :=
  match calendar with
  | None => (Returns false, None)
  | Some calendar =>
      let collisions := collision_with_calendar calendar ++ [id calendar] in
      let calendar := set_collision_with_calendar calendar collisions in
      let check_collision :=
        match collision_with_calendar calendar with
        | [] => []
        | _ :: _ =>
            extend_events localize google_calendar_service
                          (start_datetime event_input) (end_datetime event_input)
                          collisions
        end in
      (match check_collision_time_without_self_branch
               check_collision
               (start_datetime event_input) (end_datetime event_input) with
       | Returns false => Returns false
       | Returns true => Returns true
       | Raises e => Raises e
       end, Some calendar)
  end.

End Zones.

(** A server whose own zone is Europe/Prague, in winter (UTC+1). *)
Definition prague_winter (x : datetime) : instant := x - us_per_hour.

End Spec.

(** ** Sample data

    The rules are the ones of the fixtures of the test suite; the game
    room holds eight people.  Day 100 at 09:00 is the present; the
    requests are for day 103. *)

Module Sample.
Import Schemas ServicesUtils EventService ApiUtils ApiEvents Spec.

Definition rules : Rules := mkRules false false 32 36 0 14.

Definition game : ReservationService := mkReservationService "game" "Game room".

(** The game room: eight people, no more even with permission. *)
Definition game_room : Calendar :=
  mkCalendar "game_room_id" "Game room" 8 (Some false) false [] rules rules rules.

(** The same room, more people allowed with permission. *)
Definition game_room_with_permission : Calendar :=
  mkCalendar "game_room_id" "Game room" 8 (Some true) false [] rules rules rules.

Definition member : User := mkUser true [].

Definition holds_game : list ServiceValidity := [mkServiceValidity "game"].
Definition holds_nothing : list ServiceValidity := [].

Definition clock : Clock := fun _ => at_day 100 9 0.

(** Bookings of day 103, as Google lists them (instants). *)
Definition booked_10_12 : GoogleEvent :=
  mkGoogleEvent (Some (prague_winter (at_day 103 10 0)))
                (Some (prague_winter (at_day 103 12 0))).

Definition booked_12_14 : GoogleEvent :=
  mkGoogleEvent (Some (prague_winter (at_day 103 12 0)))
                (Some (prague_winter (at_day 103 14 0))).

(** Services that list, for the window asked, no booking, one booking,
    and two bookings in either order. *)
Definition no_booking : GoogleCalendarService := fun _ _ _ => [].

Definition one_booking : GoogleCalendarService :=
  fun calendar_id _ _ =>
    if String.eqb calendar_id "game_room_id" then [booked_10_12] else [].

Definition two_bookings : GoogleCalendarService :=
  fun calendar_id _ _ =>
    if String.eqb calendar_id "game_room_id"
    then [booked_10_12; booked_12_14] else [].

Definition two_bookings_swapped : GoogleCalendarService :=
  fun calendar_id _ _ =>
    if String.eqb calendar_id "game_room_id"
    then [booked_12_14; booked_10_12] else [].

(** Requests of day 103. *)
Definition from_12_to_13 : EventCreate :=
  mkEventCreate (at_day 103 12 0) (at_day 103 13 0) 5.

Definition from_1159_to_13 : EventCreate :=
  mkEventCreate (at_day 103 11 59) (at_day 103 13 0) 5.

Definition from_11_to_13 : EventCreate :=
  mkEventCreate (at_day 103 11 0) (at_day 103 13 0) 5.

(** The end an hour before the start. *)
Definition from_13_to_12 : EventCreate :=
  mkEventCreate (at_day 103 13 0) (at_day 103 12 0) 5.

(** Ten guests for five hours. *)
Definition ten_guests : EventCreate :=
  mkEventCreate (at_day 103 11 0) (at_day 103 16 0) 10.

(** Ten guests for forty-eight hours. *)
Definition ten_guests_two_days : EventCreate :=
  mkEventCreate (at_day 103 11 0) (at_day 105 11 0) 10.

(** The game room after one call of the collision check. *)
Definition game_room_after_check : Calendar :=
  set_collision_with_calendar game_room ["game_room_id"%string].

End Sample.

(** ** What can be observed of a run of [create_event] *)

Module Observations.
Import Schemas ServicesUtils EventService ApiUtils ApiEvents.

(** The calendars on which an event was inserted in Google Calendar. *)
Fixpoint google_inserts (effects : list Effect) : list string :=
  match effects with
  | [] => []
  | GoogleInsert calendarId _ :: rest => calendarId :: google_inserts rest
  | _ :: rest => google_inserts rest
  end.

(** The calendars for which a booking was stored in the database. *)
Fixpoint stored_bookings (effects : list Effect) : list string :=
  match effects with
  | [] => []
  | ServiceCreateEvent _ calendar_id :: rest => calendar_id :: stored_bookings rest
  | _ :: rest => stored_bookings rest
  end.

(** The templates of the e-mails that were prepared. *)
Fixpoint emails (effects : list Effect) : list string :=
  match effects with
  | [] => []
  | PreparingEmail template :: rest => template :: emails rest
  | _ :: rest => emails rest
  end.

(** The rules with other values of the two flags. *)
Definition set_flags (r : Rules) (nt rwp : bool) : Rules :=
  mkRules nt rwp (max_reservation_hours r) (in_advance_hours r)
          (in_advance_minutes r) (in_prior_days r).

(** The calendar with other values of the flags of its three rules. *)
Definition set_calendar_flags (c : Calendar)
           (club active manager : bool * bool) : Calendar :=
  mkCalendar (id c) (reservation_type c) (max_people c)
             (more_than_max_people_with_permission c)
             (collision_with_itself c) (collision_with_calendar c)
             (set_flags (club_member_rules c) (fst club) (snd club))
             (set_flags (active_member_rules c) (fst active) (snd active))
             (set_flags (manager_rules c) (fst manager) (snd manager)).

(** A timed event of Google Calendar touches the requested interval. *)
Definition touches (astimezone : datetime -> instant) (event : GoogleEvent)
           (event_input : EventCreate) : Prop :=
  exists s e,
    start_dateTime event = Some s /\ end_dateTime event = Some e
    /\ (e = astimezone (start_datetime event_input)
        \/ s = astimezone (end_datetime event_input)).

(** Splits a table of equivalences into its directions and closes the
    ones that are decided by the constructors and by arithmetic. *)
Ltac table_split :=
  repeat match goal with
         | |- _ /\ _ => split
         | |- _ <-> _ => split
         | |- forall _, _ => intro
         end.

Ltac table_side :=
  repeat match goal with
         | H : _ /\ _ |- _ => destruct H
         | H : exists _, _ |- _ => destruct H
         | H : _ \/ _ |- _ => destruct H
         end;
  try discriminate; try congruence; try lia; auto;
  try (eexists; reflexivity);
  try (right; eexists; reflexivity).

End Observations.

(** ** The life of a booking: [models/event.py], [crud/crud_base.py],
       [crud/crud_event.py], [services/service_base.py] and the methods
       of [services/event_services.py] that change the state of an event

    A table is the list of its rows that are not soft-deleted, the ones
    that [get] finds; a row is found by its primary key. *)

Module Models.
Import Schemas.

(** [class Event] of [models/event.py] (the nullable
    [additional_services], which nothing below touches, is left out). *)
Record Event := mkEvent {
  id : string;
  purpose : string;
  guests : Z;
  email : string;
  start_datetime : datetime;
  end_datetime : datetime;
  event_state : EventState;
  user_id : Z;
  calendar_id : string
}.

(** A row of the calendars: the calendar and the key of its service. *)
Record CalendarRow := mkCalendarRow {
  calendar : Calendar;
  reservation_service_id : string
}.

(** A row of the reservation services. *)
Record ReservationServiceRow := mkReservationServiceRow {
  service_id : string;
  service : ReservationService
}.

Record Database := mkDatabase {
  events : list Event;
  calendars : list CalendarRow;
  reservation_services : list ReservationServiceRow
}.

(** [class User] of [schemas/user.py] with its [id]. *)
Record Requester := mkRequester {
  requester_id : Z;
  requester : User
}.

(** [class EventUpdate], the fields that the callers set.  [None]: the
    field was not set, and [dict(exclude_unset=True)] leaves it out;
    [Some None]: the field was set to [None]. *)
Record EventUpdate := mkEventUpdate {
  set_start_datetime : option (option datetime);
  set_end_datetime : option (option datetime);
  set_event_state : option (option EventState)
}.

(** [class EventUpdateTime]: both times are optional. *)
Record EventUpdateTime := mkEventUpdateTime {
  new_start_datetime : option datetime;
  new_end_datetime : option datetime
}.

Definition EventState_eqb (a b : EventState) : bool :=
  match a, b with
  | NOT_APPROVED, NOT_APPROVED => true
  | UPDATE_REQUESTED, UPDATE_REQUESTED => true
  | CONFIRMED, CONFIRMED => true
  | CANCELED, CANCELED => true
  | _, _ => false
  end.

End Models.

Module EventLifecycle.
Import Schemas EventService Models.

(** The exceptions raised on the way. *)
Inductive Exception :=
| CancelCanceled         (* You can't cancel canceled reservation. *)
| CancelAfterStart       (* You cannot cancel the reservation after it has started. *)
| ChangeCanceled         (* You can't change canceled reservation. *)
| ChangeAfterStart       (* You cannot change the reservation time after it has started. *)
| ChangeUpdateRequested  (* You can't change reservation in state update requested. *)
| ApproveNotNotApproved  (* You cannot approve a reservation that is not in the
                            'not approved' state. *)
| CalendarOfEventMissing (* A calendar of this event isn't exist. *)
| ServiceOfEventMissing  (* A reservation service of this event isn't exist. *)
| PermissionDeniedCancel (* You do not have permission to cancel a reservation
                            made by another user. *)
| PermissionDeniedUpdate (service_name : string)
                         (* You must be the {name} manager to update this event. *)
| PermissionDeniedApprove (service_name : string)
                         (* You must be the {name} manager to approve this
                            reservation. *)
| IntegrityError.        (* the commit refused [NULL] in a column that is not
                            nullable *)

Inductive Try (A : Type) := Return (a : A) | Raise (e : Exception).
Arguments Return {A} a.
Arguments Raise {A} e.

(** [CRUDBase.get] on the events; [uuid] is the path parameter of the
    request, a string. *)
Definition get (db : Database) (uuid : string) : option Event :=
  find (fun row => String.eqb (id row) uuid) (events db).

(** [CRUDBase.get] on the calendars and on the reservation services. *)
Definition calendar_get (db : Database) (uuid : string) : option CalendarRow :=
  find (fun row => String.eqb (Schemas.id (calendar row)) uuid) (calendars db).

Definition reservation_service_get (db : Database) (uuid : string)
  : option ReservationServiceRow :=
  find (fun row => String.eqb (service_id row) uuid) (reservation_services db).

(** The commit of a changed row: the row with its key takes its place. *)
Definition commit (db : Database) (row : Event) : Database :=
  mkDatabase
    (map (fun old => if String.eqb (id old) (id row) then row else old) (events db))
    (calendars db) (reservation_services db).

(** The loop of [setattr] of [CRUDBase.update]; the columns are not
    nullable, so a field set to [None] makes the commit fail. *)
Definition setattrs (db_obj : Event) (obj_in : EventUpdate) : option Event :=
  match set_start_datetime obj_in, set_end_datetime obj_in, set_event_state obj_in with
  | Some None, _, _ | _, Some None, _ | _, _, Some None => None
  | s, e, st =>
      Some (mkEvent (id db_obj) (purpose db_obj) (guests db_obj) (email db_obj)
                    (match s with Some (Some v) => v | _ => start_datetime db_obj end)
                    (match e with Some (Some v) => v | _ => end_datetime db_obj end)
                    (match st with Some (Some v) => v | _ => event_state db_obj end)
                    (user_id db_obj) (calendar_id db_obj))
  end.

(** [CRUDBase.update] *)
Definition crud_update (db : Database) (db_obj : option Event) (obj_in : EventUpdate)
  : Try (option Event) * Database :=
  match db_obj with
  | None => (Return None, db)
  | Some db_obj =>
      match setattrs db_obj obj_in with
      | None => (Raise IntegrityError, db)
      | Some row => (Return (Some row), commit db row)
      end
  end.

(** [CrudServiceBase.update] *)
Definition update (db : Database) (uuid : string) (obj_in : EventUpdate)
  : Try (option Event) * Database :=
  match get db uuid with
  | None => (Return None, db)
  | Some obj_to_update => crud_update db (Some obj_to_update) obj_in
  end.

(** [CRUDEvent.confirm_event] *)
Definition crud_confirm_event (db : Database) (uuid : string)
  : Try (option Event) * Database :=
  match get db uuid with
  | None => (Return None, db)
  | Some obj =>
      let obj := mkEvent (id obj) (purpose obj) (guests obj) (email obj)
                         (start_datetime obj) (end_datetime obj) CONFIRMED
                         (user_id obj) (calendar_id obj) in
      (Return (Some obj), commit db obj)
  end.

Definition get_reservation_service_of_this_event (db : Database) (event : Event)
  : Try ReservationService :=
  match calendar_get db (calendar_id event) with
  | None => Raise CalendarOfEventMissing
  | Some calendar =>
      match reservation_service_get db (reservation_service_id calendar) with
      | None => Raise ServiceOfEventMissing
      | Some reservation_service => Return (service reservation_service)
      end
  end.

Definition approve_update_reservation_time (uuid : string)
           (event_update : EventUpdate) (user : Requester) (db : Database)
  : Try (option Event) * Database :=
  match get db uuid with
  | None => (Return None, db)
  | Some event_to_update =>
      if EventState_eqb (event_state event_to_update) CANCELED
      then (Raise ChangeCanceled, db)
      else
        match get_reservation_service_of_this_event db event_to_update with
        | Raise e => (Raise e, db)
        | Return reservation_service =>
            if negb (string_in (alias reservation_service) (roles (requester user)))
            then (Raise (PermissionDeniedUpdate (name reservation_service)), db)
            else update db uuid event_update
        end
  end.

Definition request_update_reservation_time (uuid : string)
           (event_update : EventUpdateTime) (user : Requester) (db : Database)
  : Clocked (Try (option Event) * Database) :=
  match get db uuid with
  | None => ret (Return None, db)
  | Some event_to_update =>
      now <- datetime_now ;;
      if start_datetime event_to_update <? now
      then ret (Raise ChangeAfterStart, db)
      else if EventState_eqb (event_state event_to_update) CANCELED
      then ret (Raise ChangeCanceled, db)
      else if EventState_eqb (event_state event_to_update) UPDATE_REQUESTED
      then ret (Raise ChangeUpdateRequested, db)
      else
        let event_update_time :=
          mkEventUpdate (Some (new_start_datetime event_update))
                        (Some (new_end_datetime event_update))
                        (Some (Some UPDATE_REQUESTED)) in
        ret (update db uuid event_update_time)
  end.

Definition cancel_event (uuid : string) (user : Requester) (db : Database)
  : Clocked (Try (option Event) * Database) :=
  match get db uuid with
  | None => ret (Return None, db)
  | Some event =>
      if EventState_eqb (event_state event) CANCELED
      then ret (Raise CancelCanceled, db)
      else
        now <- datetime_now ;;
        if start_datetime event <? now
        then ret (Raise CancelAfterStart, db)
        else
          match get_reservation_service_of_this_event db event with
          | Raise e => ret (Raise e, db)
          | Return reservation_service =>
              if negb (user_id event =? requester_id user)
                 && negb (string_in (alias reservation_service)
                                    (roles (requester user)))
              then ret (Raise PermissionDeniedCancel, db)
              else
                let updated_event :=
                  mkEventUpdate None None (Some (Some CANCELED)) in
                ret (update db uuid updated_event)
          end
  end.

Definition confirm_event (uuid : string) (user : Requester) (db : Database)
  : Try (option Event) * Database :=
  match get db uuid with
  | None => (Return None, db)
  | Some event =>
      if negb (EventState_eqb (event_state event) NOT_APPROVED)
      then (Raise ApproveNotNotApproved, db)
      else
        match get_reservation_service_of_this_event db event with
        | Raise e => (Raise e, db)
        | Return reservation_service =>
            if negb (string_in (alias reservation_service) (roles (requester user)))
            then (Raise (PermissionDeniedApprove (name reservation_service)), db)
            else crud_confirm_event db uuid
        end
  end.

(** The row with another state, and with other times. *)
Definition with_state (e : Event) (s : EventState) : Event :=
  mkEvent (id e) (purpose e) (guests e) (email e)
          (start_datetime e) (end_datetime e) s (user_id e) (calendar_id e).

Definition with_times (e : Event) (a b : datetime) : Event :=
  mkEvent (id e) (purpose e) (guests e) (email e) a b
          (event_state e) (user_id e) (calendar_id e).

(** The user may act as the manager of the service of the event. *)
Definition manages (db : Database) (user : Requester) (event : Event) : Prop :=
  exists reservation_service,
    get_reservation_service_of_this_event db event = Return reservation_service
    /\ string_in (alias reservation_service) (roles (requester user)) = true.

(** The two rows are the same booking: only the times and the state
    may differ. *)
Definition same_booking (e e' : Event) : Prop :=
  id e' = id e /\ purpose e' = purpose e /\ guests e' = guests e
  /\ email e' = email e /\ user_id e' = user_id e
  /\ calendar_id e' = calendar_id e.

(** What an operation on the event [uuid] leaves alone: the keys of the
    events and their order, every other event, the calendars and the
    reservation services; and the whole database when it does not return
    an event. *)
Definition leaves_alone (uuid : string) (db : Database)
           (result : Try (option Event) * Database) : Prop :=
  map id (events (snd result)) = map id (events db)
  /\ calendars (snd result) = calendars db
  /\ reservation_services (snd result) = reservation_services db
  /\ (forall other, other <> uuid -> get (snd result) other = get db other)
  /\ ((forall event, fst result <> Return (Some event)) -> snd result = db)
  /\ (forall event, fst result = Return (Some event) ->
                    get (snd result) uuid = Some event).

(** The event that an operation returns is the booking that was found. *)
Definition keeps_booking (uuid : string) (db : Database)
           (result : Try (option Event) * Database) : Prop :=
  forall event event',
    get db uuid = Some event ->
    fst result = Return (Some event') ->
    same_booking event event'.

End EventLifecycle.

Module LifecycleSample.
Import Schemas Models EventLifecycle.

Definition game_row : CalendarRow :=
  mkCalendarRow Sample.game_room "service-1".

Definition game_service_row : ReservationServiceRow :=
  mkReservationServiceRow "service-1" Sample.game.

(** A booking of day 103, 11:00 to 16:00, by the user 7. *)
Definition booking (state : EventState) : Event :=
  mkEvent "event-1" "party" 5 "member@buk.cvut.cz"
          (at_day 103 11 0) (at_day 103 16 0) state 7 "game_room_id".

Definition other_booking : Event :=
  mkEvent "event-2" "study" 2 "other@buk.cvut.cz"
          (at_day 104 9 0) (at_day 104 10 0) CONFIRMED 8 "game_room_id".

Definition database (state : EventState) : Database :=
  mkDatabase [booking state; other_booking] [game_row] [game_service_row].

Definition owner : Requester := mkRequester 7 (mkUser true []).
Definition stranger : Requester := mkRequester 9 (mkUser true []).
Definition manager : Requester := mkRequester 1 (mkUser true ["game"%string]).

Definition to_the_next_day : EventUpdateTime :=
  mkEventUpdateTime (Some (at_day 104 11 0)) (Some (at_day 104 16 0)).

End LifecycleSample.

(** ** Sample data, further: a server outside the zone of Prague, an
       all-day event, a room for one *)

Module ZoneSample.
Import Schemas ApiUtils.

(** A server whose own zone is UTC: [astimezone] reads the naive
    datetime on the UTC wall clock. *)
Definition utc_server (x : datetime) : instant := x.

(** An all-day event: Google lists it with [date], without [dateTime]. *)
Definition booked_all_day : GoogleEvent := mkGoogleEvent None None.

Definition one_all_day_booking : GoogleCalendarService :=
  fun calendar_id _ _ =>
    if String.eqb calendar_id "game_room_id" then [booked_all_day] else [].

(** A request inside the booking from 10:00 to 12:00. *)
Definition from_11_to_12 : EventCreate :=
  mkEventCreate (at_day 103 11 0) (at_day 103 12 0) 5.

(** The room of the sample, for one person. *)
Definition room_for_one : Calendar :=
  mkCalendar "game_room_id" "Game room" 1 (Some false) false []
             Sample.rules Sample.rules Sample.rules.

End ZoneSample.

(** * Properties *)

Import Schemas ServicesUtils EventService ApiUtils ApiEvents Spec.

(** ** The collision detector *)

Section CollisionDetector.
Variable localize : datetime -> instant.
Variable astimezone : datetime -> instant.

Lemma fold_extend_flat_map (service : GoogleCalendarService) (a b : datetime)
      (ids : list string) (acc : list GoogleEvent) :
  fold_left (fun check_collision calendar_id =>
               check_collision ++ get_events localize service a b calendar_id)
            ids acc
  = acc ++ flat_map (get_events localize service a b) ids.
Proof.
  revert acc; induction ids as [|i ids IH]; intros acc; simpl.
  - now rewrite app_nil_r.
  - rewrite IH. now rewrite app_assoc.
Qed.

Lemma extend_events_flat_map service a b ids :
  extend_events localize service a b ids
  = flat_map (get_events localize service a b) ids.
Proof. unfold extend_events. now rewrite fold_extend_flat_map. Qed.

(** The fields that [check_collision_time] reads are not the mutated one. *)
Lemma check_collision_time_mutated l a b calendar ids service :
  check_collision_time localize astimezone l a b
                       (set_collision_with_calendar calendar ids) service
  = check_collision_time localize astimezone l a b calendar service.
Proof. reflexivity. Qed.

Lemma bool_result_eta (r : Result bool) :
  match r with
  | Returns false => Returns false
  | Returns true => Returns true
  | Raises e => Raises e
  end = r.
Proof. destruct r as [[|]|]; reflexivity. Qed.

(** [control_collision] hands the gathered set to
    [check_collision_time], and leaves the calendar with its own
    identifier appended. *)
Lemma control_collision_gathers service event_input calendar :
  control_collision localize astimezone service event_input (Some calendar)
  = (check_collision_time localize astimezone
       (gathered localize service event_input calendar)
       (start_datetime event_input) (end_datetime event_input) calendar service,
     Some (set_collision_with_calendar
             calendar (collision_with_calendar calendar ++ [id calendar]))).
Proof.
  unfold control_collision, gathered.
  rewrite check_collision_time_mutated, bool_result_eta.
  cbn [collision_with_calendar set_collision_with_calendar].
  rewrite extend_events_flat_map.
  destruct (collision_with_calendar calendar ++ [id calendar]) eqn:E.
  - now destruct (collision_with_calendar calendar).
  - reflexivity.
Qed.

Lemma control_collision_without_self_branch_gathers service event_input calendar :
  control_collision_without_self_branch
    localize astimezone service event_input (Some calendar)
  = (check_collision_time_without_self_branch astimezone
       (gathered localize service event_input calendar)
       (start_datetime event_input) (end_datetime event_input),
     Some (set_collision_with_calendar
             calendar (collision_with_calendar calendar ++ [id calendar]))).
Proof.
  unfold control_collision_without_self_branch, gathered.
  rewrite bool_result_eta.
  cbn [collision_with_calendar set_collision_with_calendar].
  rewrite extend_events_flat_map.
  destruct (collision_with_calendar calendar ++ [id calendar]) eqn:E.
  - now destruct (collision_with_calendar calendar).
  - reflexivity.
Qed.

(** The events of the calendar itself are among the gathered ones. *)
Lemma own_events_gathered service event_input calendar :
  (length (get_events localize service (start_datetime event_input)
                      (end_datetime event_input) (id calendar))
   <= length (gathered localize service event_input calendar))%nat.
Proof.
  unfold gathered. rewrite flat_map_app, length_app. simpl.
  rewrite app_nil_r. lia.
Qed.

(** When the branch fires on a calendar for at least one person, more
    than one event was gathered. *)
Lemma self_branch_many service event_input calendar :
  1 <= max_people calendar ->
  self_branch_fires localize service event_input calendar = true ->
  (1 < length (gathered localize service event_input calendar))%nat.
Proof.
  intros Hmax Hfire. unfold self_branch_fires in Hfire.
  apply andb_true_iff in Hfire as [_ Hlen].
  apply Z.gtb_lt in Hlen.
  pose proof (own_events_gathered service event_input calendar). lia.
Qed.

Lemma check_collision_time_split l a b calendar service :
  check_collision_time localize astimezone l a b calendar service
  = if negb (collision_with_itself calendar)
       && (Z.of_nat (length (get_events localize service a b (id calendar)))
           >? max_people calendar)
    then Returns false
    else check_collision_time_without_self_branch astimezone l a b.
Proof. reflexivity. Qed.

Lemma more_than_one_conflict l a b calendar service :
  (1 < length l)%nat ->
  check_collision_time localize astimezone l a b calendar service = Returns false.
Proof.
  intros Hlen. rewrite check_collision_time_split.
  destruct (andb _ _); [reflexivity|].
  unfold check_collision_time_without_self_branch.
  destruct l as [|x [|y l]]; simpl in Hlen; try lia. reflexivity.
Qed.

(** The order of the gathered events does not matter, nor does the
    order in which the service lists the events of the calendar. *)
Lemma check_collision_time_perm l l' a b calendar service service' :
  Permutation l l' ->
  Permutation (get_events localize service a b (id calendar))
              (get_events localize service' a b (id calendar)) ->
  check_collision_time localize astimezone l a b calendar service
  = check_collision_time localize astimezone l' a b calendar service'.
Proof.
  intros Hl Hown. rewrite !check_collision_time_split.
  rewrite (Permutation_length Hown).
  destruct (andb _ _); [reflexivity|].
  unfold check_collision_time_without_self_branch.
  rewrite <- (Permutation_length Hl).
  destruct l as [|x [|y l]].
  - apply Permutation_nil in Hl. now subst.
  - apply Permutation_length_1_inv in Hl. now subst.
  - reflexivity.
Qed.

Lemma gathered_perm service service' event_input calendar :
  (forall calendar_id a b,
      Permutation (service calendar_id a b) (service' calendar_id a b)) ->
  Permutation (gathered localize service event_input calendar)
              (gathered localize service' event_input calendar).
Proof.
  intros H. unfold gathered.
  induction (collision_with_calendar calendar ++ [id calendar]) as [|i ids IH];
    simpl.
  - constructor.
  - apply Permutation_app; [apply H | exact IH].
Qed.

(** One timed event.  When exactly one existing event was gathered for
    the requested window (on a calendar for at least one person, the
    event being a timed one), the detector answers "free" exactly when
    the end of the event is the instant that [astimezone] makes of the
    requested start, or its start the instant that [astimezone] makes of
    the requested end; otherwise it answers "already reserved". *)
Theorem single_collision_back_to_back :
  forall service event_input calendar event s e,
    1 <= max_people calendar ->
    gathered localize service event_input calendar = [event] ->
    start_dateTime event = Some s ->
    end_dateTime event = Some e ->
    exists free,
      fst (control_collision localize astimezone service event_input
                             (Some calendar)) = Returns free
      /\ (free = true <->
          e = astimezone (start_datetime event_input)
          \/ s = astimezone (end_datetime event_input)).
Proof.
  intros service event_input calendar event s e Hmax Hg Hs He.
  rewrite control_collision_gathers. cbn [fst].
  rewrite check_collision_time_split.
  destruct (negb (collision_with_itself calendar) && _) eqn:Hfire.
  - pose proof (self_branch_many service event_input calendar Hmax Hfire) as Hlen.
    rewrite Hg in Hlen. simpl in Hlen. lia.
  - rewrite Hg. unfold check_collision_time_without_self_branch.
    cbn [length Nat.eqb Nat.ltb Nat.leb nth_error]. rewrite Hs, He.
    destruct (Z.eqb_spec e (astimezone (start_datetime event_input))) as [E1|E1];
      destruct (Z.eqb_spec s (astimezone (end_datetime event_input))) as [E2|E2];
      cbn [orb].
    + exists true. intuition.
    + exists true. intuition.
    + exists true. intuition.
    + exists false. split; [reflexivity|].
      split; [discriminate | intros [H|H]; contradiction].
Qed.

(** C2. The answer of the detector does not depend on the order in
    which the existing events are listed; and when more than one
    existing event was gathered for the requested window, the answer is
    "already reserved". *)
Theorem many_collisions_conflict_any_order :
  forall service service' event_input calendar,
    (forall calendar_id a b,
        Permutation (service calendar_id a b) (service' calendar_id a b)) ->
    control_collision localize astimezone service' event_input (Some calendar)
    = control_collision localize astimezone service event_input (Some calendar)
    /\ ((1 < length (gathered localize service event_input calendar))%nat ->
        fst (control_collision localize astimezone service event_input
                               (Some calendar)) = Returns false).
Proof.
  intros service service' event_input calendar Hperm. split.
  - rewrite !control_collision_gathers. f_equal.
    symmetry. apply check_collision_time_perm.
    + now apply gathered_perm.
    + apply Hperm.
  - intros Hlen. rewrite control_collision_gathers. cbn [fst].
    now apply more_than_one_conflict.
Qed.

(** C9. On a calendar for at least one person the self-overlap
    capacity branch decides nothing: when it fires, more than one event
    was gathered already, and the detector with the branch taken out
    returns the same result and leaves the same calendar. *)
Theorem self_branch_never_decides :
  forall service event_input calendar,
    (forall c, calendar = Some c -> 1 <= max_people c) ->
    (forall c, calendar = Some c ->
               self_branch_fires localize service event_input c = true ->
               (1 < length (gathered localize service event_input c))%nat)
    /\ control_collision localize astimezone service event_input calendar
       = control_collision_without_self_branch
           localize astimezone service event_input calendar.
Proof.
  intros service event_input [calendar|] Hmax; split;
    try reflexivity; try discriminate.
  - intros c Hc. apply self_branch_many. now apply Hmax.
  - specialize (Hmax calendar eq_refl).
    rewrite control_collision_gathers, control_collision_without_self_branch_gathers.
    f_equal. rewrite check_collision_time_split.
    fold (self_branch_fires localize service event_input calendar).
    destruct (self_branch_fires localize service event_input calendar) eqn:Hfire;
      [|reflexivity].
    pose proof (self_branch_many service event_input calendar Hmax Hfire) as Hlen.
    unfold check_collision_time_without_self_branch.
    destruct (gathered localize service event_input calendar) as [|x [|y l]];
      simpl in Hlen; try lia. reflexivity.
Qed.

End CollisionDetector.

(** ** The eligibility evaluator *)

Section EligibilityEvaluator.

Lemma first_standard_check_first_failure services reservation_service
      start_time end_time clock :
  fst (first_standard_check services reservation_service start_time end_time clock)
  = first_failure
      [(negb (service_availability_check services (alias reservation_service)),
        NoService (alias reservation_service));
       (start_time <? clock 0%nat, BeforePresent);
       (end_time <? start_time, EndBeforeBeginning)].
Proof.
  unfold first_standard_check, bind, ret, datetime_now. cbn [first_failure].
  destruct (negb _); [reflexivity|].
  destruct (start_time <? clock 0%nat); [reflexivity|].
  destruct (end_time <? start_time); reflexivity.
Qed.

(** The two threshold checks are tests on the absolute value of
    [start - now]. *)
Lemma control_res_in_advance_abs start_time user_rules clock :
  fst (control_res_in_advance_or_prior start_time user_rules true clock)
  = negb (Z.abs (start_time - clock 0%nat)
          <? mk_timedelta 0 (in_advance_hours user_rules)
                            (in_advance_minutes user_rules)).
Proof.
  unfold control_res_in_advance_or_prior, bind, ret, datetime_now.
  destruct (_ <? _); reflexivity.
Qed.

Lemma control_res_prior_abs start_time user_rules clock :
  fst (control_res_in_advance_or_prior start_time user_rules false clock)
  = negb (Z.abs (start_time - clock 0%nat)
          >? mk_timedelta (in_prior_days user_rules) 0 0).
Proof.
  unfold control_res_in_advance_or_prior, bind, ret, datetime_now.
  destruct (_ >? _); reflexivity.
Qed.

Lemma control_res_reads_once start_time user_rules in_advance clock :
  snd (control_res_in_advance_or_prior start_time user_rules in_advance clock)
  = later 1 clock.
Proof.
  unfold control_res_in_advance_or_prior, bind, ret, datetime_now.
  destruct in_advance; [destruct (_ <? _) | destruct (_ >? _)]; reflexivity.
Qed.

Lemma reservation_in_advance_first_failure start_time user_rules clock :
  fst (reservation_in_advance start_time user_rules clock)
  = first_failure
      [(Z.abs (start_time - clock 0%nat)
        <? mk_timedelta 0 (in_advance_hours user_rules)
                          (in_advance_minutes user_rules),
        InAdvance (in_advance_hours user_rules) (in_advance_minutes user_rules));
       (Z.abs (start_time - clock 1%nat)
        >? mk_timedelta (in_prior_days user_rules) 0 0,
        PriorDays (in_prior_days user_rules))].
Proof.
  unfold reservation_in_advance, control_res_in_advance_or_prior,
    bind, ret, datetime_now.
  cbn [first_failure].
  destruct (_ <? _); [reflexivity|]. cbn.
  destruct (_ >? _); reflexivity.
Qed.

Lemma evaluator_verdict user services event_input calendar reservation_service
      clock :
  fst (control_conditions_and_permissions
         user services event_input calendar reservation_service clock)
  = first_failure
      (eligibility_checks user services event_input calendar reservation_service
                          (clock 0%nat) (clock 1%nat) (clock 2%nat)).
Proof.
  unfold control_conditions_and_permissions, first_standard_check,
    reservation_in_advance, control_res_in_advance_or_prior, dif_days_res,
    eligibility_checks, bind, ret, datetime_now.
  cbn [first_failure].
  repeat match goal with
         | |- context [if ?b then _ else _] => destruct b; [reflexivity|]; cbn
         end.
  reflexivity.
Qed.

Lemma evaluator_clock user services event_input calendar reservation_service
      clock :
  let run := control_conditions_and_permissions
               user services event_input calendar reservation_service clock in
  snd run = later (readings_taken (fst run)) clock.
Proof.
  unfold control_conditions_and_permissions, first_standard_check,
    reservation_in_advance, control_res_in_advance_or_prior, dif_days_res,
    bind, ret, datetime_now.
  cbv zeta.
  repeat match goal with
         | |- context [if ?b then _ else _] => destruct b; [reflexivity|]; cbn
         end.
  reflexivity.
Qed.

(** C3. The evaluator returns the message of the first failing check
    in the order membership, temporal sanity, capacity, maximum duration,
    advance notice, prior-booking window ("Access" when none fails); it
    stops there: the checks after the failing one are not run, so the
    clock is read no further. *)
Theorem evaluator_first_failure :
  forall user services event_input calendar reservation_service clock,
    let run := control_conditions_and_permissions
                 user services event_input calendar reservation_service clock in
    let checks := eligibility_checks
                    user services event_input calendar reservation_service
                    (clock 0%nat) (clock 1%nat) (clock 2%nat) in
    fst run = first_failure checks
    /\ map (fun check => reason_of (snd check)) checks
       = [MissingEntitlement; InvalidInterval; InvalidInterval; OverCapacity;
          ExceedsMaxDuration; InsufficientAdvanceNotice; TooFarInAdvance]
    /\ snd run = later (readings_taken (fst run)) clock.
Proof.
  intros user services event_input calendar reservation_service clock run checks.
  split; [|split].
  - apply evaluator_verdict.
  - reflexivity.
  - apply evaluator_clock.
Qed.

End EligibilityEvaluator.

(** ** The booking pipeline *)

Section BookingPipeline.
Variable localize : datetime -> instant.
Variable astimezone : datetime -> instant.

(** The evaluator does not look at the list that the collision check
    mutates. *)
Lemma post_event_mutated event_input services user calendar ids
      reservation_service :
  post_event event_input services user
             (Some (set_collision_with_calendar calendar ids)) reservation_service
  = post_event event_input services user (Some calendar) reservation_service.
Proof. reflexivity. Qed.

(** The collision check comes first and ends the request when it does
    not answer "free". *)
Lemma create_event_not_free service services user event_create calendar
      reservation_service clock :
  fst (control_collision localize astimezone service event_create (Some calendar))
  <> Returns true ->
  decision_of (response (fst (create_event localize astimezone service services
                                           user event_create (Some calendar)
                                           reservation_service clock)))
  = match fst (control_collision localize astimezone service event_create
                                 (Some calendar)) with
    | Returns _ => AlreadyBooked
    | Raises _ => Failure
    end
  /\ effects (fst (create_event localize astimezone service services
                                user event_create (Some calendar)
                                reservation_service clock)) = [].
Proof.
  unfold create_event. rewrite control_collision_gathers. cbn [fst].
  destruct (check_collision_time _ _ _ _ _ _ _) as [[|]|e]; intros H.
  - now contradiction H.
  - split; reflexivity.
  - split; reflexivity.
Qed.

(** After a "free" answer the request goes through the evaluator, then
    through the two checks of [create_event] itself. *)
Lemma create_event_free service services user event_create calendar
      reservation_service clock :
  fst (control_collision localize astimezone service event_create (Some calendar))
  = Returns true ->
  let out := fst (create_event localize astimezone service services
                               user event_create (Some calendar)
                               reservation_service clock) in
  match fst (control_conditions_and_permissions
               user services event_create calendar reservation_service clock) with
  | Denied m => response out = EventBodyMessage m /\ effects out = []
  | Access =>
      if guests event_create >? max_people calendar then
        response out = MoreThanPeople (max_people calendar)
        /\ effects out
           = [GoogleInsert (id calendar) (NotApprovedPeople (max_people calendar));
              ServiceCreateEvent NOT_APPROVED (id calendar)]
      else if negb (check_night_reservation user)
              && negb (control_available_reservation_time
                         (start_datetime event_create) (end_datetime event_create))
      then
        response out = NightTime
        /\ effects out
           = [GoogleInsert (id calendar) NotApprovedNight;
              ServiceCreateEvent NOT_APPROVED (id calendar);
              PreparingEmail "not_approve_night_time_reservation"]
      else
        response out = EventGoogleCalendar
        /\ effects out
           = [GoogleInsert (id calendar) (ReservationType (reservation_type calendar));
              ServiceCreateEvent CONFIRMED (id calendar);
              PreparingEmail "confirm_reservation"]
  end.
Proof.
  intros Hfree. unfold create_event.
  rewrite control_collision_gathers in Hfree |- *. cbn [fst] in Hfree.
  rewrite Hfree. rewrite post_event_mutated.
  unfold post_event, bind.
  destruct (control_conditions_and_permissions _ _ _ _ _ _) as [[|m] clock'];
    cbn [fst ret].
  - cbn [max_people set_collision_with_calendar id reservation_type].
    destruct (guests event_create >? max_people calendar); [split; reflexivity|].
    destruct (andb _ _); split; reflexivity.
  - split; reflexivity.
Qed.

(** C4 (amended). A request whose end is strictly before its start and
    which the collision check (run first by [create_event]) lets through
    is rejected and nothing is created: for its interval -- start in the
    past or end before start -- when the requester holds the service of
    the resource, for the missing service otherwise; the capacity and
    the later checks are not reached. *)
Theorem inverted_interval_rejected :
  forall service services user event_create calendar reservation_service clock,
    end_datetime event_create < start_datetime event_create ->
    fst (control_collision localize astimezone service event_create (Some calendar))
    = Returns true ->
    let out := fst (create_event localize astimezone service services
                                 user event_create (Some calendar)
                                 reservation_service clock) in
    decision_of (response out)
    = (if service_availability_check services (alias reservation_service)
       then Rejected InvalidInterval
       else Rejected MissingEntitlement)
    /\ effects out = [].
Proof.
  intros service services user event_create calendar reservation_service clock
         Hinv Hfree.
  pose proof (create_event_free service services user event_create calendar
                                reservation_service clock Hfree) as H.
  cbv zeta in H |- *.
  rewrite evaluator_verdict in H. unfold eligibility_checks in H.
  cbn [first_failure] in H.
  apply Z.ltb_lt in Hinv. rewrite Hinv in H.
  destruct (service_availability_check services (alias reservation_service));
    cbn [negb] in H.
  - destruct (start_datetime event_create <? clock 0%nat);
      destruct H as [-> ->]; split; reflexivity.
  - destruct H as [-> ->]; split; reflexivity.
Qed.

(** With the standard check passed, too many guests on a calendar that
    does not allow them are what the evaluator denies. *)
Lemma capacity_denied user services event_create calendar reservation_service
      clock :
  fst (first_standard_check services reservation_service
                            (start_datetime event_create)
                            (end_datetime event_create) clock) = Access ->
  truthy (more_than_max_people_with_permission calendar) = false ->
  guests event_create > max_people calendar ->
  fst (control_conditions_and_permissions
         user services event_create calendar reservation_service clock)
  = Denied (TooManyPeople (max_people calendar)).
Proof.
  intros Hstd Hallow Hguests. apply Z.gt_lt, Z.gtb_lt in Hguests.
  rewrite evaluator_verdict. rewrite first_standard_check_first_failure in Hstd.
  unfold eligibility_checks. cbn [first_failure] in Hstd |- *.
  destruct (negb (service_availability_check _ _)); [discriminate|].
  destruct (start_datetime event_create <? clock 0%nat); [discriminate|].
  destruct (end_datetime event_create <? start_datetime event_create);
    [discriminate|].
  now rewrite Hallow, Hguests.
Qed.

(** What becomes of a request for too many guests. *)
Lemma over_capacity_cases service services user event_create calendar
      reservation_service clock :
  guests event_create > max_people calendar ->
  let out := fst (create_event localize astimezone service services
                               user event_create (Some calendar)
                               reservation_service clock) in
  match fst (control_collision localize astimezone service event_create
                               (Some calendar)) with
  | Returns true =>
      match fst (control_conditions_and_permissions
                   user services event_create calendar reservation_service clock) with
      | Denied m => response out = EventBodyMessage m /\ effects out = []
      | Access =>
          response out = MoreThanPeople (max_people calendar)
          /\ effects out
             = [GoogleInsert (id calendar) (NotApprovedPeople (max_people calendar));
                ServiceCreateEvent NOT_APPROVED (id calendar)]
      end
  | Returns false => response out = AlreadyReservation /\ effects out = []
  | Raises e => response out = RaiseExn e /\ effects out = []
  end.
Proof.
  intros Hguests out. apply Z.gt_lt, Z.gtb_lt in Hguests.
  destruct (fst (control_collision localize astimezone service event_create
                                   (Some calendar))) as [[|]|e] eqn:Hfree.
  - pose proof (create_event_free service services user event_create calendar
                                  reservation_service clock Hfree) as H.
    cbv zeta in H. fold out in H. now rewrite Hguests in H.
  - subst out. unfold create_event.
    rewrite control_collision_gathers in Hfree |- *. cbn [fst] in Hfree.
    rewrite Hfree. split; reflexivity.
  - subst out. unfold create_event.
    rewrite control_collision_gathers in Hfree |- *. cbn [fst] in Hfree.
    rewrite Hfree. split; reflexivity.
Qed.

(** C5 (amended). A request for more guests than the calendar holds is
    never confirmed.  When the collision check lets it through: if it
    passes the membership and the temporal checks and the calendar does
    not allow more people with permission, it is rejected for its
    capacity and nothing is created; if the calendar allows it and the
    evaluator grants access, the booking is created in the not-approved
    state; and if the evaluator denies it, it is rejected with the
    message of the evaluator and nothing is created. *)
Theorem over_capacity_outcome :
  forall service services user event_create calendar reservation_service clock,
    guests event_create > max_people calendar ->
    let free := fst (control_collision localize astimezone service event_create
                                       (Some calendar)) in
    let verdict := fst (control_conditions_and_permissions
                          user services event_create calendar
                          reservation_service clock) in
    let out := fst (create_event localize astimezone service services
                                 user event_create (Some calendar)
                                 reservation_service clock) in
    (decision_of (response out) <> Confirmed
     /\ created_state (effects out) <> Some CONFIRMED)
    /\ (free = Returns true ->
        fst (first_standard_check services reservation_service
                                  (start_datetime event_create)
                                  (end_datetime event_create) clock) = Access ->
        truthy (more_than_max_people_with_permission calendar) = false ->
        decision_of (response out) = Rejected OverCapacity
        /\ effects out = [])
    /\ (free = Returns true ->
        truthy (more_than_max_people_with_permission calendar) = true ->
        verdict = Access ->
        decision_of (response out) = FlaggedOverCapacity
        /\ created_state (effects out) = Some NOT_APPROVED)
    /\ (free = Returns true ->
        forall m, verdict = Denied m ->
                  decision_of (response out) = Rejected (reason_of m)
                  /\ effects out = []).
Proof.
  intros service services user event_create calendar reservation_service clock
         Hguests free verdict out.
  pose proof (over_capacity_cases service services user event_create calendar
                                  reservation_service clock Hguests) as Hcases.
  cbv zeta in Hcases. fold free verdict out in Hcases.
  split; [|split; [|split]].
  - destruct free as [[|]|e]; [destruct verdict|..];
      destruct Hcases as [-> ->]; split; discriminate.
  - intros Hfree Hstd Hallow. rewrite Hfree in Hcases.
    unfold verdict in Hcases.
    rewrite (capacity_denied user services event_create calendar
                             reservation_service clock Hstd Hallow Hguests)
      in Hcases.
    destruct Hcases as [-> ->]. split; reflexivity.
  - intros Hfree _ Haccess. rewrite Hfree, Haccess in Hcases.
    destruct Hcases as [-> ->]. split; reflexivity.
  - intros Hfree m Hdenied. rewrite Hfree, Hdenied in Hcases.
    destruct Hcases as [-> ->]. split; reflexivity.
Qed.

End BookingPipeline.

(** ** Advance notice and prior window *)

(** C6. Both threshold checks compare the absolute value of
    [start - now] with their threshold: the advance-notice check fails
    exactly when it is below the advance notice, the prior-window check
    exactly when it is above the prior window.  So a start as far before
    the reading of the clock as another is after it gets the same verdict
    from each check; a start in the past by more than the prior window
    fails the prior-window check, and [reservation_in_advance] then
    answers with the "too far in advance" message as soon as the
    advance-notice check is passed. *)
Theorem advance_prior_absolute :
  forall user_rules clock d,
    (forall start_time,
        fst (control_res_in_advance_or_prior start_time user_rules true clock)
        = negb (Z.abs (start_time - clock 0%nat)
                <? mk_timedelta 0 (in_advance_hours user_rules)
                                  (in_advance_minutes user_rules)))
    /\ (forall start_time,
           fst (control_res_in_advance_or_prior start_time user_rules false clock)
           = negb (Z.abs (start_time - clock 0%nat)
                   >? mk_timedelta (in_prior_days user_rules) 0 0))
    /\ (forall in_advance,
        fst (control_res_in_advance_or_prior (clock 0%nat - d) user_rules
                                             in_advance clock)
        = fst (control_res_in_advance_or_prior (clock 0%nat + d) user_rules
                                               in_advance clock))
    /\ (mk_timedelta (in_prior_days user_rules) 0 0 < d ->
        fst (control_res_in_advance_or_prior (clock 0%nat - d) user_rules
                                             false clock) = false)
    /\ (mk_timedelta (in_prior_days user_rules) 0 0 < d ->
        mk_timedelta 0 (in_advance_hours user_rules) (in_advance_minutes user_rules)
        <= Z.abs (clock 1%nat - d - clock 0%nat) ->
        fst (reservation_in_advance (clock 1%nat - d) user_rules clock)
        = Denied (PriorDays (in_prior_days user_rules))).
Proof.
  intros user_rules clock d. split; [|split; [|split; [|split]]].
  - intros start_time. apply control_res_in_advance_abs.
  - intros start_time. apply control_res_prior_abs.
  - intros [|].
    + rewrite !control_res_in_advance_abs. do 2 f_equal. lia.
    + rewrite !control_res_prior_abs. do 2 f_equal. lia.
  - intros Hd. rewrite control_res_prior_abs.
    replace (Z.abs (clock 0%nat - d - clock 0%nat) >? _) with true; [reflexivity|].
    symmetry. apply Z.gtb_lt. lia.
  - intros Hd Hadv. rewrite reservation_in_advance_first_failure.
    cbn [first_failure].
    replace (Z.abs (clock 1%nat - d - clock 0%nat) <? _) with false
      by (symmetry; apply Z.ltb_ge; exact Hadv).
    replace (Z.abs (clock 1%nat - d - clock 1%nat) >? _) with true; [reflexivity|].
    symmetry. apply Z.gtb_lt. lia.
Qed.

(** ** Construction of the rules *)

Lemma Rules_errors_nil mrh iah iam ipd :
  Rules_errors mrh iah iam ipd = [] <->
  0 <= mrh /\ 0 <= iah /\ 0 <= iam /\ 0 <= ipd.
Proof.
  unfold Rules_errors, field_ge0.
  destruct (Z.ltb_spec mrh 0); destruct (Z.ltb_spec iah 0);
    destruct (Z.ltb_spec iam 0); destruct (Z.ltb_spec ipd 0);
    cbn [app]; split; intros H'; try discriminate; try reflexivity; lia.
Qed.

(** C8. Constructing the rules with a negative number of maximum hours,
    advance hours, advance minutes or prior days raises the validation
    error there and then; and the numeric fields of every instance that
    the constructor returns are the given ones and are not negative. *)
Theorem Rules_negative_field_rejected :
  forall nt rwp mrh iah iam ipd,
    (mrh < 0 \/ iah < 0 \/ iam < 0 \/ ipd < 0 ->
     exists errs, errs <> [] /\ Rules_init nt rwp mrh iah iam ipd = inl errs)
    /\ (forall r, Rules_init nt rwp mrh iah iam ipd = inr r ->
                  r = mkRules nt rwp mrh iah iam ipd
                  /\ 0 <= max_reservation_hours r
                  /\ 0 <= in_advance_hours r
                  /\ 0 <= in_advance_minutes r
                  /\ 0 <= in_prior_days r).
Proof.
  intros nt rwp mrh iah iam ipd.
  pose proof (Rules_errors_nil mrh iah iam ipd) as Hnil.
  unfold Rules_init. destruct (Rules_errors mrh iah iam ipd) as [|err errs].
  - split.
    + intros Hneg. destruct Hnil as [Hnil _]. specialize (Hnil eq_refl). lia.
    + intros r [= <-]. cbn. destruct Hnil as [Hnil _]. specialize (Hnil eq_refl).
      tauto.
  - split.
    + intros _. exists (err :: errs). split; [discriminate | reflexivity].
    + intros r [=].
Qed.

(** ** The night-time check *)

Lemma time_of_shift x k : time_of (x + k * us_per_day) = time_of x.
Proof. unfold time_of. apply Z.mod_add. unfold us_per_day, us_per_hour,
  us_per_minute, us_per_second. lia. Qed.

(** C10. The night-time check looks at the times of day only: it fails
    exactly when the start is before 08:00 by the clock of its day, or
    the end is before 08:00 or after 22:00 by the clock of its day, and
    moving the start or the end by whole days changes nothing.  So the
    booking from 23:00 of one day to 12:00 of the next passes, though it
    holds hours of the night. *)
Theorem night_check_time_of_day_only :
  forall start_datetime end_datetime,
    (control_available_reservation_time start_datetime end_datetime = false <->
     time_of start_datetime < strptime_time 8 0 0
     \/ time_of end_datetime < strptime_time 8 0 0
     \/ time_of end_datetime > strptime_time 22 0 0)
    /\ (forall j k,
           control_available_reservation_time (start_datetime + j * us_per_day)
                                              (end_datetime + k * us_per_day)
           = control_available_reservation_time start_datetime end_datetime)
    /\ (forall day,
           control_available_reservation_time (at_day day 23 0)
                                              (at_day (day + 1) 12 0) = true
           /\ exists t, at_day day 23 0 < t < at_day (day + 1) 12 0
                        /\ time_of t < strptime_time 8 0 0).
Proof.
  intros s e. split; [|split].
  - unfold control_available_reservation_time. cbv zeta.
    destruct (Z.ltb_spec (time_of s) (strptime_time 8 0 0));
      destruct (Z.ltb_spec (time_of e) (strptime_time 8 0 0));
      destruct (Z.gtb_spec (time_of e) (strptime_time 22 0 0));
      cbn [orb]; split; intros; try reflexivity; try discriminate; lia.
  - intros j k. unfold control_available_reservation_time.
    now rewrite !time_of_shift.
  - intros day. split.
    + unfold control_available_reservation_time, at_day.
      rewrite !(Z.add_comm (_ * us_per_day)).
      rewrite !time_of_shift. reflexivity.
    + exists (at_day (day + 1) 3 0). split.
      * unfold at_day, strptime_time, us_per_day, us_per_hour, us_per_minute,
          us_per_second. lia.
      * unfold at_day. rewrite (Z.add_comm (_ * us_per_day)).
        rewrite time_of_shift. reflexivity.
Qed.

(** ** The properties on the sample data *)

Import Sample ZoneSample.

(** The booking 10:00-12:00 and the request 12:00-13:00 touch: free. *)
Example touching_request_is_free :
  control_collision prague_winter prague_winter one_booking from_12_to_13
                    (Some game_room)
  = (Returns true, Some game_room_after_check).
Proof. reflexivity. Qed.

(** The request 11:59-13:00 overlaps the booking by a minute: reserved. *)
Example minute_overlap_is_reserved :
  fst (control_collision prague_winter prague_winter one_booking from_1159_to_13
                         (Some game_room))
  = Returns false.
Proof. reflexivity. Qed.

Lemma single_collision_back_to_back_witness :
  exists free,
    fst (control_collision prague_winter prague_winter one_booking from_12_to_13
                           (Some game_room)) = Returns free
    /\ (free = true <->
        prague_winter (at_day 103 12 0)
        = prague_winter (start_datetime from_12_to_13)
        \/ prague_winter (at_day 103 10 0)
           = prague_winter (end_datetime from_12_to_13)).
Proof.
  apply (single_collision_back_to_back
           prague_winter prague_winter one_booking from_12_to_13 game_room
           booked_10_12).
  - simpl. lia.
  - reflexivity.
  - reflexivity.
  - reflexivity.
Defined.

(** C1. The detector does not keep to "one gathered event: reserved
    unless back-to-back".  A lone all-day event, which has no
    [dateTime], makes it raise [KeyError] instead of answering.  And the
    requested times are read on the clock of the server, not on the one
    of Prague as in [get_events]: on a server in UTC, with the booking
    from 10:00 to 12:00 of Prague the one event gathered, the request
    from 11:00 to 12:00, which lies inside the booking, is answered
    "free", and the request from 12:00 to 13:00, which touches it, is
    answered "already reserved". *)
Theorem single_collision_not_as_specified :
  (gathered prague_winter one_all_day_booking from_12_to_13 game_room
   = [booked_all_day]
   /\ fst (control_collision prague_winter prague_winter one_all_day_booking
                             from_12_to_13 (Some game_room))
      = Raises KeyError)
  /\ (gathered prague_winter one_booking from_11_to_12 game_room = [booked_10_12]
      /\ start_dateTime booked_10_12
         = Some (prague_winter (at_day 103 10 0))
      /\ end_dateTime booked_10_12
         = Some (prague_winter (at_day 103 12 0))
      /\ prague_winter (at_day 103 10 0)
         < prague_winter (start_datetime from_11_to_12)
      /\ prague_winter (end_datetime from_11_to_12)
         <= prague_winter (at_day 103 12 0)
      /\ fst (control_collision prague_winter utc_server one_booking
                                from_11_to_12 (Some game_room))
         = Returns true)
  /\ (gathered prague_winter one_booking from_12_to_13 game_room = [booked_10_12]
      /\ prague_winter (start_datetime from_12_to_13)
         = prague_winter (at_day 103 12 0)
      /\ fst (control_collision prague_winter utc_server one_booking
                                from_12_to_13 (Some game_room))
         = Returns false).
Proof.
  repeat split; try reflexivity; vm_compute; discriminate.
Qed.

Lemma many_collisions_conflict_any_order_witness :
  control_collision prague_winter prague_winter two_bookings_swapped from_11_to_13
                    (Some game_room)
  = control_collision prague_winter prague_winter two_bookings from_11_to_13
                      (Some game_room)
  /\ fst (control_collision prague_winter prague_winter two_bookings from_11_to_13
                            (Some game_room)) = Returns false.
Proof.
  assert (Hperm : forall calendar_id a b,
             Permutation (two_bookings calendar_id a b)
                         (two_bookings_swapped calendar_id a b)).
  { intros calendar_id a b. unfold two_bookings, two_bookings_swapped.
    destruct (String.eqb calendar_id "game_room_id").
    - apply perm_swap.
    - apply perm_nil. }
  destruct (many_collisions_conflict_any_order
              prague_winter prague_winter two_bookings two_bookings_swapped
              from_11_to_13 game_room Hperm) as [Hsame Hmany].
  split.
  - exact Hsame.
  - apply Hmany. simpl. lia.
Defined.

Lemma self_branch_never_decides_witness :
  self_branch_fires prague_winter two_bookings from_11_to_13 room_for_one = true
  /\ (1 < length (gathered prague_winter two_bookings from_11_to_13 room_for_one))%nat
  /\ control_collision prague_winter prague_winter two_bookings from_11_to_13
                       (Some room_for_one)
     = control_collision_without_self_branch
         prague_winter prague_winter two_bookings from_11_to_13 (Some room_for_one).
Proof.
  assert (Hmax : forall c, Some room_for_one = Some c -> 1 <= max_people c).
  { intros c [= <-]. simpl. lia. }
  destruct (self_branch_never_decides
              prague_winter prague_winter two_bookings from_11_to_13
              (Some room_for_one) Hmax) as [Hmany Hsame].
  split; [reflexivity|]. split; [|exact Hsame].
  apply (Hmany room_for_one eq_refl). reflexivity.
Defined.

(** C7. The collision check is not free of effects: it appends the
    identifier of the calendar to the list of colliding calendars of the
    calendar it was given; and called again on that same calendar, for
    the same request and the same bookings, it gathers the booking of the
    calendar twice and answers "already reserved" where it answered "free"
    before. *)
Theorem control_collision_changes_its_calendar :
  let first := control_collision prague_winter prague_winter one_booking
                                 from_12_to_13 (Some game_room) in
  let second := control_collision prague_winter prague_winter one_booking
                                  from_12_to_13 (snd first) in
  collision_with_calendar game_room = []
  /\ option_map collision_with_calendar (snd first)
     = Some ["game_room_id"%string]
  /\ snd first <> Some game_room
  /\ fst first = Returns true
  /\ fst second = Returns false
  /\ option_map collision_with_calendar (snd second)
     = Some ["game_room_id"%string; "game_room_id"%string].
Proof.
  cbv zeta. repeat split; try reflexivity. discriminate.
Qed.

(** The same for every calendar: its own identifier is appended. *)
Lemma control_collision_appends_own_id localize astimezone service event_input
      calendar :
  option_map collision_with_calendar
             (snd (control_collision localize astimezone service event_input
                                     (Some calendar)))
  = Some (collision_with_calendar calendar ++ [id calendar])
  /\ snd (control_collision localize astimezone service event_input (Some calendar))
     <> Some calendar.
Proof.
  rewrite control_collision_gathers. cbn [snd option_map]. split; [reflexivity|].
  intros [= H]. apply (f_equal collision_with_calendar) in H. cbn in H.
  apply (f_equal (@length string)) in H. rewrite length_app in H. simpl in H. lia.
Qed.

(** C4, as the specification states it, does not hold: a requester
    without the service of the resource who asks for an interval that
    ends before it starts is told about the missing service, not about
    the interval. *)
Lemma inverted_interval_without_service :
  end_datetime from_13_to_12 < start_datetime from_13_to_12
  /\ response (fst (create_event prague_winter prague_winter no_booking
                                 holds_nothing member from_13_to_12
                                 (Some game_room) game clock))
     = EventBodyMessage (NoService "game")
  /\ decision_of (response (fst (create_event prague_winter prague_winter no_booking
                                              holds_nothing member from_13_to_12
                                              (Some game_room) game clock)))
     <> Rejected InvalidInterval.
Proof.
  split; [|split].
  - vm_compute. reflexivity.
  - reflexivity.
  - discriminate.
Qed.

(** The collision check runs before the evaluator: when the service
    lists two bookings for the window asked, the answer is "already
    reserved", whatever the interval. *)
Example inverted_interval_already_reserved :
  decision_of (response (fst (create_event prague_winter prague_winter two_bookings
                                           holds_game member from_13_to_12
                                           (Some game_room) game clock)))
  = AlreadyBooked.
Proof. reflexivity. Qed.

Lemma inverted_interval_rejected_witness :
  decision_of (response (fst (create_event prague_winter prague_winter no_booking
                                           holds_game member from_13_to_12
                                           (Some game_room) game clock)))
  = Rejected InvalidInterval
  /\ effects (fst (create_event prague_winter prague_winter no_booking
                                holds_game member from_13_to_12
                                (Some game_room) game clock)) = [].
Proof.
  apply (inverted_interval_rejected
           prague_winter prague_winter no_booking holds_game member from_13_to_12
           game_room game clock).
  - vm_compute. reflexivity.
  - reflexivity.
Defined.

(** C5, as the specification states it, does not hold: on the calendar
    that allows more people with permission, ten guests for forty-eight
    hours are not flagged for their number but rejected for the
    duration. *)
Lemma over_capacity_rejected_for_duration :
  guests ten_guests_two_days > max_people game_room_with_permission
  /\ truthy (more_than_max_people_with_permission game_room_with_permission) = true
  /\ response (fst (create_event prague_winter prague_winter no_booking
                                 holds_game member ten_guests_two_days
                                 (Some game_room_with_permission) game clock))
     = EventBodyMessage DifferentDay
  /\ decision_of (response (fst (create_event prague_winter prague_winter no_booking
                                              holds_game member ten_guests_two_days
                                              (Some game_room_with_permission)
                                              game clock)))
     <> FlaggedOverCapacity.
Proof.
  repeat split.
  discriminate.
Qed.

Lemma over_capacity_outcome_witness :
  (decision_of (response (fst (create_event prague_winter prague_winter no_booking
                                            holds_game member ten_guests
                                            (Some game_room) game clock)))
   = Rejected OverCapacity
   /\ effects (fst (create_event prague_winter prague_winter no_booking
                                 holds_game member ten_guests
                                 (Some game_room) game clock)) = [])
  /\ (decision_of (response (fst (create_event prague_winter prague_winter no_booking
                                               holds_game member ten_guests
                                               (Some game_room_with_permission)
                                               game clock)))
      = FlaggedOverCapacity
      /\ created_state
           (effects (fst (create_event prague_winter prague_winter no_booking
                                       holds_game member ten_guests
                                       (Some game_room_with_permission)
                                       game clock)))
         = Some NOT_APPROVED).
Proof.
  split.
  - assert (H : guests ten_guests > max_people game_room) by (vm_compute; reflexivity).
    destruct (over_capacity_outcome
                prague_winter prague_winter no_booking holds_game member ten_guests
                game_room game clock H) as (_ & Hdeny & _ & _).
    apply Hdeny; reflexivity.
  - assert (H : guests ten_guests > max_people game_room_with_permission)
      by (vm_compute; reflexivity).
    destruct (over_capacity_outcome
                prague_winter prague_winter no_booking holds_game member ten_guests
                game_room_with_permission game clock H) as (_ & _ & Hflag & _).
    apply Hflag; reflexivity.
Defined.

Lemma advance_prior_absolute_witness :
  fst (control_res_in_advance_or_prior (clock 0%nat - mk_timedelta 20 0 0) rules
                                       false clock) = false
  /\ fst (reservation_in_advance (clock 1%nat - mk_timedelta 20 0 0) rules clock)
     = Denied (PriorDays 14)
  /\ fst (control_res_in_advance_or_prior (clock 0%nat - mk_timedelta 0 35 0) rules
                                          true clock)
     = negb (Z.abs (clock 0%nat - mk_timedelta 0 35 0 - clock 0%nat)
             <? mk_timedelta 0 36 0).
Proof.
  destruct (advance_prior_absolute rules clock (mk_timedelta 20 0 0))
    as (Habs & _ & _ & Hprior & Hmessage).
  split; [|split].
  - apply Hprior. vm_compute. reflexivity.
  - apply Hmessage.
    + vm_compute. reflexivity.
    + vm_compute. discriminate.
  - apply (Habs (clock 0%nat - mk_timedelta 0 35 0)).
Defined.

Lemma Rules_negative_field_rejected_witness :
  (exists errs, errs <> [] /\ Rules_init false false 32 36 (-5) 14 = inl errs)
  /\ 0 <= in_prior_days rules.
Proof.
  destruct (Rules_negative_field_rejected false false 32 36 (-5) 14) as [Hneg _].
  destruct (Rules_negative_field_rejected false false 32 36 0 14) as [_ Hok].
  split.
  - apply Hneg. right. right. left. lia.
  - apply (Hok rules). reflexivity.
Defined.

(** The examples of the specification for the thresholds, with the rules
    of twenty-four hours of notice, fourteen days of window and
    twenty-four hours of duration. *)
Example advance_notice_one_hour :
  fst (reservation_in_advance (clock 0%nat + mk_timedelta 0 1 0)
                              (mkRules false false 24 24 0 14) clock)
  = Denied (InAdvance 24 0).
Proof. reflexivity. Qed.

Example prior_window_twenty_days :
  fst (reservation_in_advance (clock 0%nat + mk_timedelta 20 0 0)
                              (mkRules false false 24 24 0 14) clock)
  = Denied (PriorDays 14).
Proof. reflexivity. Qed.

Example duration_thirty_one_and_twenty_three_hours :
  dif_days_res (at_day 103 0 0) (at_day 103 0 0 + mk_timedelta 0 31 0)
               (mkRules false false 24 24 0 14) = false
  /\ dif_days_res (at_day 103 0 0) (at_day 103 0 0 + mk_timedelta 0 23 0)
                  (mkRules false false 24 24 0 14) = true.
Proof. split; reflexivity. Qed.

(** An active member, five guests, 11:00 to 16:00, nothing booked. *)
Example member_booking_confirmed :
  let out := fst (create_event prague_winter prague_winter no_booking
                               holds_game member
                               (mkEventCreate (at_day 103 11 0) (at_day 103 16 0) 5)
                               (Some game_room) game clock) in
  decision_of (response out) = Confirmed
  /\ created_state (effects out) = Some CONFIRMED.
Proof. split; reflexivity. Qed.

(** * Further properties of the checks and of [create_event] *)

Import Observations.

(** ** The evaluator *)

(** X1. The user has the service exactly when one of the services that the
    information system lists carries the alias; with no service listed,
    the user has none. *)
Theorem service_availability_check_iff :
  forall services service_alias',
    service_availability_check services service_alias' = true <->
    exists service, In service services /\ service_alias service = service_alias'.
Proof.
  intros services a. induction services as [|service rest IH]; simpl.
  - split; [discriminate | intros (s & [] & _)].
  - destruct (String.eqb_spec (service_alias service) a) as [Heq|Hne].
    + split; [|reflexivity]. intros _. exists service. auto.
    + rewrite IH. split.
      * intros (s & Hin & Hs). exists s. auto.
      * intros (s & [<-|Hin] & Hs); [contradiction|]. exists s. auto.
Qed.

(** X2. The evaluator grants access exactly when every condition holds: the
    service is held, the start is not before the clock, the end is not
    before the start, the guests fit (or more are allowed with
    permission), the duration is at most the maximum of the rules of the
    user, the start is at least the advance notice away and at most the
    prior window away; all the bounds are inclusive. *)
Theorem access_iff_all_conditions :
  forall user services event_input calendar reservation_service clock,
    let rules := choose_user_rules user calendar reservation_service in
    fst (control_conditions_and_permissions
           user services event_input calendar reservation_service clock) = Access
    <->
    (service_availability_check services (alias reservation_service) = true
     /\ clock 0%nat <= start_datetime event_input
     /\ start_datetime event_input <= end_datetime event_input
     /\ (truthy (more_than_max_people_with_permission calendar) = true
         \/ guests event_input <= max_people calendar)
     /\ end_datetime event_input - start_datetime event_input
        <= mk_timedelta 0 (max_reservation_hours rules) 0
     /\ mk_timedelta 0 (in_advance_hours rules) (in_advance_minutes rules)
        <= Z.abs (start_datetime event_input - clock 1%nat)
     /\ Z.abs (start_datetime event_input - clock 2%nat)
        <= mk_timedelta (in_prior_days rules) 0 0).
Proof.
  intros user services event_input calendar reservation_service clock rules.
  rewrite evaluator_verdict. unfold eligibility_checks. fold rules.
  cbn [first_failure].
  destruct (service_availability_check services (alias reservation_service));
    cbn [negb]; [|split; [discriminate | intros [? _]; discriminate]].
  destruct (Z.ltb_spec (start_datetime event_input) (clock 0%nat));
    [split; [discriminate | lia]|].
  destruct (Z.ltb_spec (end_datetime event_input) (start_datetime event_input));
    [split; [discriminate | lia]|].
  destruct (truthy (more_than_max_people_with_permission calendar)); cbn [negb andb].
  - destruct (Z.gtb_spec (Z.abs (end_datetime event_input - start_datetime event_input))
                         (mk_timedelta 0 (max_reservation_hours rules) 0));
      [split; [discriminate | lia]|].
    destruct (Z.ltb_spec (Z.abs (start_datetime event_input - clock 1%nat))
                         (mk_timedelta 0 (in_advance_hours rules)
                                       (in_advance_minutes rules)));
      [split; [discriminate | lia]|].
    destruct (Z.gtb_spec (Z.abs (start_datetime event_input - clock 2%nat))
                         (mk_timedelta (in_prior_days rules) 0 0));
      [split; [discriminate | lia]|].
    split; [intros _|reflexivity]. repeat split; try lia; auto.
  - destruct (Z.gtb_spec (guests event_input) (max_people calendar));
      [split; [discriminate | intros (_ & _ & _ & [?|?] & _); [discriminate | lia]]|].
    destruct (Z.gtb_spec (Z.abs (end_datetime event_input - start_datetime event_input))
                         (mk_timedelta 0 (max_reservation_hours rules) 0));
      [split; [discriminate | lia]|].
    destruct (Z.ltb_spec (Z.abs (start_datetime event_input - clock 1%nat))
                         (mk_timedelta 0 (in_advance_hours rules)
                                       (in_advance_minutes rules)));
      [split; [discriminate | lia]|].
    destruct (Z.gtb_spec (Z.abs (start_datetime event_input - clock 2%nat))
                         (mk_timedelta (in_prior_days rules) 0 0));
      [split; [discriminate | lia]|].
    split; [intros _|reflexivity]. repeat split; try lia; auto.
Qed.

(** X3. Rules whose advance notice is longer than the prior window (by more
    than the clock moves between the two readings) admit no start at
    all: every request is denied by one of the two checks. *)
Theorem advance_beyond_window_admits_nothing :
  forall user_rules clock start_time,
    mk_timedelta (in_prior_days user_rules) 0 0 + Z.abs (clock 1%nat - clock 0%nat)
    < mk_timedelta 0 (in_advance_hours user_rules) (in_advance_minutes user_rules) ->
    fst (reservation_in_advance start_time user_rules clock) <> Access.
Proof.
  intros user_rules clock start_time Hrules.
  rewrite reservation_in_advance_first_failure. cbn [first_failure].
  destruct (Z.ltb_spec (Z.abs (start_time - clock 0%nat))
                       (mk_timedelta 0 (in_advance_hours user_rules)
                                     (in_advance_minutes user_rules)));
    [discriminate|].
  destruct (Z.gtb_spec (Z.abs (start_time - clock 1%nat))
                       (mk_timedelta (in_prior_days user_rules) 0 0));
    [discriminate|].
  lia.
Qed.

(** ** The collision detector, further *)

Section CollisionDetectorFurther.
Variable localize : datetime -> instant.
Variable astimezone : datetime -> instant.

Lemma flat_map_length_in {A B} (f : A -> list B) (x : A) (l : list A) :
  In x l -> (length (f x) <= length (flat_map f l))%nat.
Proof.
  induction l as [|y l IH]; simpl; [contradiction|].
  rewrite length_app. intros [->|Hin]; [lia|]. specialize (IH Hin). lia.
Qed.

(** With the branch out of the way, a calendar for at least one person
    is judged by the gathered events alone. *)
Lemma control_collision_by_gathered service event_input calendar :
  1 <= max_people calendar ->
  fst (control_collision localize astimezone service event_input (Some calendar))
  = check_collision_time_without_self_branch
      astimezone (gathered localize service event_input calendar)
      (start_datetime event_input) (end_datetime event_input).
Proof.
  intros Hmax. rewrite control_collision_gathers. cbn [fst].
  rewrite check_collision_time_split.
  fold (self_branch_fires localize service event_input calendar).
  destruct (self_branch_fires localize service event_input calendar) eqn:Hfire;
    [|reflexivity].
  pose proof (self_branch_many localize service event_input calendar Hmax Hfire)
    as Hlen.
  unfold check_collision_time_without_self_branch.
  destruct (gathered localize service event_input calendar) as [|x [|y l]];
    simpl in Hlen; try lia. reflexivity.
Qed.

(** X4. On a server whose own zone is the one of Prague, so that
    [astimezone] and [localize] make the same instants of the requested
    start and end, and on a calendar for at least one person, the
    detector answers "free" exactly when nothing was gathered for the
    requested window, or one timed event only and that event touches the
    request: its end is the requested start or its start the requested
    end, as instants of Prague. *)
Theorem free_iff_empty_or_touching :
  forall service event_input calendar,
    1 <= max_people calendar ->
    astimezone (start_datetime event_input) = localize (start_datetime event_input) ->
    astimezone (end_datetime event_input) = localize (end_datetime event_input) ->
    (fst (control_collision localize astimezone service event_input (Some calendar))
     = Returns true
     <->
     gathered localize service event_input calendar = []
     \/ exists event,
         gathered localize service event_input calendar = [event]
         /\ touches localize event event_input).
Proof.
  intros service event_input calendar Hmax Hzone_start Hzone_end.
  rewrite (control_collision_by_gathered service event_input calendar Hmax).
  unfold check_collision_time_without_self_branch, touches.
  rewrite Hzone_start, Hzone_end.
  destruct (gathered localize service event_input calendar) as [|x [|y l]].
  - split; [now left | reflexivity].
  - cbn [length Nat.eqb Nat.ltb Nat.leb nth_error].
    destruct (start_dateTime x) as [s|] eqn:Hs; destruct (end_dateTime x) as [e|] eqn:He.
    + destruct (Z.eqb_spec e (localize (start_datetime event_input))) as [E1|E1];
        destruct (Z.eqb_spec s (localize (end_datetime event_input))) as [E2|E2];
        cbn [orb].
      * split; [|reflexivity]. intros _. right. exists x. split; [reflexivity|].
        exists s, e. auto.
      * split; [|reflexivity]. intros _. right. exists x. split; [reflexivity|].
        exists s, e. auto.
      * split; [|reflexivity]. intros _. right. exists x. split; [reflexivity|].
        exists s, e. auto.
      * split; [discriminate|].
        intros [Hnil | (ev & [= <-] & s' & e' & Hs' & He' & Hadj)]; [discriminate|].
        rewrite Hs in Hs'. rewrite He in He'.
        injection Hs' as <-. injection He' as <-. destruct Hadj; contradiction.
    + split; [discriminate|].
      intros [Hnil | (ev & [= <-] & s' & e' & Hs' & He' & _)]; [discriminate|].
      rewrite He in He'. discriminate.
    + split; [discriminate|].
      intros [Hnil | (ev & [= <-] & s' & e' & Hs' & He' & _)]; [discriminate|].
      rewrite Hs in Hs'. discriminate.
    + split; [discriminate|].
      intros [Hnil | (ev & [= <-] & s' & e' & Hs' & He' & _)]; [discriminate|].
      rewrite Hs in Hs'. discriminate.
  - cbn [length Nat.eqb Nat.ltb Nat.leb].
    split; [discriminate|].
    intros [Hnil | (ev & Hone & _)]; discriminate.
Qed.

(** X5. The detector asks the service about the colliding calendars and the
    calendar itself only: two services that list the same events for
    these calendars and the requested window get the same answer,
    whatever they list for any other calendar. *)
Theorem only_collision_group_consulted :
  forall service service' event_input calendar,
    (forall calendar_id,
        In calendar_id (collision_with_calendar calendar ++ [id calendar]) ->
        get_events localize service' (start_datetime event_input)
                   (end_datetime event_input) calendar_id
        = get_events localize service (start_datetime event_input)
                     (end_datetime event_input) calendar_id) ->
    control_collision localize astimezone service' event_input (Some calendar)
    = control_collision localize astimezone service event_input (Some calendar).
Proof.
  intros service service' event_input calendar Hsame.
  rewrite !control_collision_gathers. f_equal.
  rewrite !check_collision_time_split.
  assert (Hown : get_events localize service' (start_datetime event_input)
                            (end_datetime event_input) (id calendar)
                 = get_events localize service (start_datetime event_input)
                              (end_datetime event_input) (id calendar)).
  { apply Hsame. apply in_or_app. right. now left. }
  rewrite Hown.
  assert (Hg : gathered localize service' event_input calendar
               = gathered localize service event_input calendar).
  { unfold gathered. rewrite !flat_map_concat_map. f_equal.
    apply map_ext_in. exact Hsame. }
  now rewrite Hg.
Qed.

(** X6. An event without [dateTime] (an all-day event), when it is the one
    event gathered, makes the detector raise [KeyError]; [create_event]
    then ends with that exception and nothing is created. *)
Theorem lone_all_day_event_raises :
  forall service event_input calendar event,
    1 <= max_people calendar ->
    gathered localize service event_input calendar = [event] ->
    start_dateTime event = None \/ end_dateTime event = None ->
    fst (control_collision localize astimezone service event_input (Some calendar))
    = Raises KeyError
    /\ forall services user reservation_service clock,
        let out := fst (create_event localize astimezone service services user
                                     event_input (Some calendar)
                                     reservation_service clock) in
        response out = RaiseExn KeyError /\ effects out = [].
Proof.
  intros service event_input calendar event Hmax Hg Hmissing.
  assert (Hraise : fst (control_collision localize astimezone service event_input
                                          (Some calendar)) = Raises KeyError).
  { rewrite (control_collision_by_gathered service event_input calendar Hmax), Hg.
    unfold check_collision_time_without_self_branch.
    cbn [length Nat.eqb Nat.ltb Nat.leb nth_error].
    destruct Hmissing as [-> | ->]; [reflexivity|].
    destruct (start_dateTime event); reflexivity. }
  split; [exact Hraise|].
  intros services user reservation_service clock out. subst out.
  unfold create_event.
  destruct (control_collision localize astimezone service event_input (Some calendar))
    as [free mutated].
  cbn [fst] in Hraise. subst free. split; reflexivity.
Qed.

(** X7. A calendar whose list of colliding calendars holds its own
    identifier has its events gathered twice, so a single event of its
    own in the window is enough for "already reserved", touching or not.
    The calendar object that the detector was called on is such a
    calendar: called again on it, the detector answers "already reserved"
    as soon as the calendar has an event in the window. *)
Theorem self_listed_calendar_blocks :
  forall service event_input calendar,
    get_events localize service (start_datetime event_input)
               (end_datetime event_input) (id calendar) <> [] ->
    (In (id calendar) (collision_with_calendar calendar) ->
     fst (control_collision localize astimezone service event_input (Some calendar))
     = Returns false)
    /\ (forall service0 event_input0,
           fst (control_collision
                  localize astimezone service event_input
                  (snd (control_collision localize astimezone service0 event_input0
                                          (Some calendar))))
           = Returns false).
Proof.
  intros service event_input calendar Hown.
  assert (Hgen : forall c,
             id c = id calendar ->
             In (id c) (collision_with_calendar c) ->
             fst (control_collision localize astimezone service event_input (Some c))
             = Returns false).
  { intros c Hid Hin. rewrite control_collision_gathers. cbn [fst].
    apply more_than_one_conflict. unfold gathered.
    rewrite flat_map_app, length_app. cbn [flat_map]. rewrite app_nil_r.
    pose proof (flat_map_length_in
                  (get_events localize service (start_datetime event_input)
                              (end_datetime event_input))
                  (id c) (collision_with_calendar c) Hin) as Hlen.
    rewrite Hid in *.
    destruct (get_events localize service (start_datetime event_input)
                         (end_datetime event_input) (id calendar));
      [contradiction|]. simpl in *. lia. }
  split.
  - intros Hin. now apply Hgen.
  - intros service0 event_input0. rewrite control_collision_gathers. cbn [snd].
    apply Hgen; [reflexivity|].
    cbn [collision_with_calendar set_collision_with_calendar id].
    apply in_or_app. right. now left.
Qed.

End CollisionDetectorFurther.

(** ** [create_event], further *)

Section BookingPipelineFurther.
Variable localize : datetime -> instant.
Variable astimezone : datetime -> instant.

(** How [create_event] ends, by the answer of the collision check and
    the verdict of the evaluator. *)
Lemma create_event_cases service services user event_create calendar
      reservation_service clock :
  let out := fst (create_event localize astimezone service services
                               user event_create (Some calendar)
                               reservation_service clock) in
  match fst (control_collision localize astimezone service event_create
                               (Some calendar)) with
  | Returns true =>
      match fst (control_conditions_and_permissions
                   user services event_create calendar reservation_service clock) with
      | Denied m => response out = EventBodyMessage m /\ effects out = []
      | Access =>
          if guests event_create >? max_people calendar then
            response out = MoreThanPeople (max_people calendar)
            /\ effects out
               = [GoogleInsert (id calendar) (NotApprovedPeople (max_people calendar));
                  ServiceCreateEvent NOT_APPROVED (id calendar)]
          else if negb (check_night_reservation user)
                  && negb (control_available_reservation_time
                             (start_datetime event_create)
                             (end_datetime event_create))
          then
            response out = NightTime
            /\ effects out
               = [GoogleInsert (id calendar) NotApprovedNight;
                  ServiceCreateEvent NOT_APPROVED (id calendar);
                  PreparingEmail "not_approve_night_time_reservation"]
          else
            response out = EventGoogleCalendar
            /\ effects out
               = [GoogleInsert (id calendar)
                               (ReservationType (reservation_type calendar));
                  ServiceCreateEvent CONFIRMED (id calendar);
                  PreparingEmail "confirm_reservation"]
      end
  | Returns false => response out = AlreadyReservation /\ effects out = []
  | Raises e => response out = RaiseExn e /\ effects out = []
  end.
Proof.
  intros out.
  destruct (fst (control_collision localize astimezone service event_create
                                   (Some calendar))) as [[|]|e] eqn:Hfree.
  - exact (create_event_free localize astimezone service services user event_create
                             calendar reservation_service clock Hfree).
  - subst out. unfold create_event.
    rewrite control_collision_gathers in Hfree |- *. cbn [fst] in Hfree.
    rewrite Hfree. split; reflexivity.
  - subst out. unfold create_event.
    rewrite control_collision_gathers in Hfree |- *. cbn [fst] in Hfree.
    rewrite Hfree. split; reflexivity.
Qed.

Lemma check_night_reservation_active user :
  check_night_reservation user = active_member user.
Proof. unfold check_night_reservation. now destruct (active_member user). Qed.

(** X8. When [create_event] confirms, flags or refuses.  A booking is
    confirmed exactly when the collision check answers "free", the
    evaluator grants access, the guests fit, and the user is an active
    member or the interval passes the night-time check; it is flagged for
    the night exactly when all but the last hold; it is flagged for the
    number of people exactly when the first two hold and the guests do
    not fit (whatever the hours); it is refused as already reserved
    exactly when the collision check answers so, and with a message of
    the evaluator exactly when the check answers "free" and the evaluator
    denies. *)
Theorem create_event_decision_table :
  forall service services user event_create calendar reservation_service clock,
    let free := fst (control_collision localize astimezone service event_create
                                       (Some calendar)) in
    let verdict := fst (control_conditions_and_permissions
                          user services event_create calendar
                          reservation_service clock) in
    let day := control_available_reservation_time
                 (start_datetime event_create) (end_datetime event_create) in
    let out := fst (create_event localize astimezone service services
                                 user event_create (Some calendar)
                                 reservation_service clock) in
    (response out = EventGoogleCalendar <->
     free = Returns true /\ verdict = Access
     /\ guests event_create <= max_people calendar
     /\ (active_member user = true \/ day = true))
    /\ (response out = NightTime <->
        free = Returns true /\ verdict = Access
        /\ guests event_create <= max_people calendar
        /\ active_member user = false /\ day = false)
    /\ ((exists n, response out = MoreThanPeople n) <->
        free = Returns true /\ verdict = Access
        /\ guests event_create > max_people calendar)
    /\ (response out = AlreadyReservation <-> free = Returns false)
    /\ (forall m, response out = EventBodyMessage m <->
                  free = Returns true /\ verdict = Denied m).
Proof.
  intros service services user event_create calendar reservation_service clock
         free verdict day out.
  pose proof (create_event_cases service services user event_create calendar
                                 reservation_service clock) as H.
  cbv zeta in H. fold free verdict day out in H.
  rewrite check_night_reservation_active in H.
  destruct free as [[|]|e].
  - destruct verdict as [|m'].
    + destruct (Z.gtb_spec (guests event_create) (max_people calendar)) as [Hg|Hg].
      * destruct H as [Hr _]. rewrite Hr. table_split; table_side.
      * destruct (active_member user); destruct day; cbn [negb andb] in H;
          destruct H as [Hr _]; rewrite Hr; table_split; table_side.
    + destruct H as [Hr _]. rewrite Hr. table_split; table_side.
  - destruct H as [Hr _]. rewrite Hr. table_split; table_side.
  - destruct H as [Hr _]. rewrite Hr. table_split; table_side.
Qed.

End BookingPipelineFurther.

Section BookingPipelineWrites.
Variable localize : datetime -> instant.
Variable astimezone : datetime -> instant.

(** X9. What [create_event] writes.  Whatever the request, it either writes
    nothing, or inserts one event in Google Calendar and stores one
    booking, both for the calendar of the request.  The stored booking
    is confirmed exactly when the answer is the inserted event and is
    not approved exactly when the answer is one of the two flags; an
    e-mail is prepared for the confirmed booking and for the night-time
    flag, none for the flag of too many people. *)
Theorem create_event_writes :
  forall service services user event_create calendar reservation_service clock,
    let out := fst (create_event localize astimezone service services
                                 user event_create (Some calendar)
                                 reservation_service clock) in
    google_inserts (effects out) = stored_bookings (effects out)
    /\ (effects out = [] \/ stored_bookings (effects out) = [id calendar])
    /\ (created_state (effects out) = Some CONFIRMED <->
        response out = EventGoogleCalendar)
    /\ (created_state (effects out) = Some NOT_APPROVED <->
        response out = NightTime \/ exists n, response out = MoreThanPeople n)
    /\ (emails (effects out) <> [] <->
        response out = EventGoogleCalendar \/ response out = NightTime).
Proof.
  intros service services user event_create calendar reservation_service clock out.
  pose proof (create_event_cases localize astimezone service services user
                                 event_create calendar reservation_service clock)
    as H.
  cbv zeta in H. fold out in H.
  destruct (fst (control_collision localize astimezone service event_create
                                   (Some calendar))) as [[|]|e];
    [destruct (fst (control_conditions_and_permissions
                      user services event_create calendar reservation_service clock));
     [destruct (guests event_create >? max_people calendar);
      [|destruct (negb (check_night_reservation user)
                  && negb (control_available_reservation_time
                             (start_datetime event_create)
                             (end_datetime event_create)))]|]|..];
    destruct H as [Hr He]; rewrite Hr, He;
    cbn [google_inserts stored_bookings created_state emails];
    table_split; table_side.
Qed.

(** The evaluator reads the numbers of the rules only. *)
Lemma evaluator_ignores_flags user services event_input calendar
      reservation_service club active manager clock :
  control_conditions_and_permissions
    user services event_input (set_calendar_flags calendar club active manager)
    reservation_service clock
  = control_conditions_and_permissions
      user services event_input calendar reservation_service clock.
Proof.
  unfold control_conditions_and_permissions, choose_user_rules,
    reservation_in_advance, control_res_in_advance_or_prior, dif_days_res.
  destruct (active_member user); cbn [negb];
    [destruct (string_in (alias reservation_service) (roles user))|];
    reflexivity.
Qed.

(** X10. The flags [night_time] and [reservation_without_permission] of the
    rules are never consulted: with any other values of them in the three
    rules of the calendar, [create_event] gives the same answer and
    writes the same.  The night-time flag of a booking depends on the
    membership of the user alone. *)
Theorem rule_flags_never_consulted :
  forall service services user event_create calendar reservation_service clock
         club active manager,
    let out := fst (create_event localize astimezone service services
                                 user event_create (Some calendar)
                                 reservation_service clock) in
    let out' := fst (create_event localize astimezone service services
                                  user event_create
                                  (Some (set_calendar_flags calendar club active manager))
                                  reservation_service clock) in
    response out' = response out /\ effects out' = effects out.
Proof.
  intros service services user event_create calendar reservation_service clock
         club active manager out out'.
  pose proof (create_event_cases localize astimezone service services user
                                 event_create calendar reservation_service clock)
    as H.
  pose proof (create_event_cases localize astimezone service services user
                                 event_create
                                 (set_calendar_flags calendar club active manager)
                                 reservation_service clock)
    as H'.
  cbv zeta in H, H'. fold out in H. fold out' in H'.
  rewrite evaluator_ignores_flags in H'.
  rewrite !control_collision_gathers in H, H'. cbn [fst] in H, H'.
  change (check_collision_time
            localize astimezone
            (gathered localize service event_create
                      (set_calendar_flags calendar club active manager))
            (start_datetime event_create) (end_datetime event_create)
            (set_calendar_flags calendar club active manager) service)
    with (check_collision_time
            localize astimezone (gathered localize service event_create calendar)
            (start_datetime event_create) (end_datetime event_create)
            calendar service) in H'.
  cbn [set_calendar_flags id max_people reservation_type] in H'.
  destruct (check_collision_time _ _ _ _ _ _ _) as [[|]|e];
    [destruct (fst (control_conditions_and_permissions
                      user services event_create calendar reservation_service clock));
     [destruct (guests event_create >? max_people calendar);
      [|destruct (negb (check_night_reservation user)
                  && negb (control_available_reservation_time
                             (start_datetime event_create)
                             (end_datetime event_create)))]|]|..];
    destruct H as [-> ->]; destruct H' as [-> ->]; split; reflexivity.
Qed.

End BookingPipelineWrites.

(** ** The further properties on the sample data *)

Lemma advance_beyond_window_admits_nothing_witness :
  fst (reservation_in_advance (at_day 103 11 0)
                              (mkRules false false 32 720 0 14) clock)
  <> Access.
Proof.
  apply (advance_beyond_window_admits_nothing
           (mkRules false false 32 720 0 14) clock (at_day 103 11 0)).
  vm_compute. reflexivity.
Defined.

Lemma free_iff_empty_or_touching_witness :
  fst (control_collision prague_winter prague_winter one_booking from_12_to_13
                         (Some game_room)) = Returns true
  <->
  gathered prague_winter one_booking from_12_to_13 game_room = []
  \/ exists event,
      gathered prague_winter one_booking from_12_to_13 game_room = [event]
      /\ touches prague_winter event from_12_to_13.
Proof.
  apply (free_iff_empty_or_touching
           prague_winter prague_winter one_booking from_12_to_13 game_room).
  - simpl. lia.
  - reflexivity.
  - reflexivity.
Defined.

Lemma only_collision_group_consulted_witness :
  control_collision prague_winter prague_winter
                    (fun calendar_id a b =>
                       if String.eqb calendar_id "sauna_id"
                       then [booked_12_14; booked_10_12]
                       else one_booking calendar_id a b)
                    from_12_to_13 (Some game_room)
  = control_collision prague_winter prague_winter one_booking from_12_to_13
                      (Some game_room).
Proof.
  apply (only_collision_group_consulted
           prague_winter prague_winter one_booking
           (fun calendar_id a b =>
              if String.eqb calendar_id "sauna_id"
              then [booked_12_14; booked_10_12]
              else one_booking calendar_id a b)
           from_12_to_13 game_room).
  intros calendar_id [<-|[]]. reflexivity.
Defined.

Lemma lone_all_day_event_raises_witness :
  fst (control_collision prague_winter prague_winter
                         (fun _ _ _ => [mkGoogleEvent None None])
                         from_12_to_13 (Some game_room))
  = Raises KeyError
  /\ forall services user reservation_service clock',
      response (fst (create_event prague_winter prague_winter
                                  (fun _ _ _ => [mkGoogleEvent None None])
                                  services user from_12_to_13 (Some game_room)
                                  reservation_service clock'))
      = RaiseExn KeyError
      /\ effects (fst (create_event prague_winter prague_winter
                                    (fun _ _ _ => [mkGoogleEvent None None])
                                    services user from_12_to_13 (Some game_room)
                                    reservation_service clock')) = [].
Proof.
  apply (lone_all_day_event_raises
           prague_winter prague_winter (fun _ _ _ => [mkGoogleEvent None None])
           from_12_to_13 game_room (mkGoogleEvent None None)).
  - simpl. lia.
  - reflexivity.
  - left. reflexivity.
Defined.

Lemma self_listed_calendar_blocks_witness :
  fst (control_collision
         prague_winter prague_winter one_booking from_12_to_13
         (snd (control_collision prague_winter prague_winter no_booking
                                 from_11_to_13 (Some game_room))))
  = Returns false.
Proof.
  apply (self_listed_calendar_blocks
           prague_winter prague_winter one_booking from_12_to_13 game_room).
  discriminate.
Defined.

(** * The life of a booking *)

Section BookingLifecycle.
Import Models EventLifecycle.

Lemma get_found db uuid event :
  get db uuid = Some event -> id event = uuid.
Proof.
  unfold get. intros H. apply find_some in H as [_ H].
  now apply String.eqb_eq in H.
Qed.

Lemma find_commit (rows : list Event) (row : Event) (key : string) :
  find (fun r => String.eqb (id r) key)
       (map (fun old => if String.eqb (id old) (id row) then row else old) rows)
  = option_map (fun old => if String.eqb (id old) (id row) then row else old)
               (find (fun r => String.eqb (id r) key) rows).
Proof.
  induction rows as [|r rows IH]; simpl; [reflexivity|].
  destruct (String.eqb_spec (id r) (id row)) as [Heq|Hne].
  - replace (String.eqb (id row) key) with (String.eqb (id r) key)
      by now rewrite Heq.
    destruct (String.eqb (id r) key); [|exact IH].
    cbn [option_map]. now rewrite Heq, String.eqb_refl.
  - destruct (String.eqb (id r) key); [|exact IH].
    cbn [option_map]. destruct (String.eqb_spec (id r) (id row)); [contradiction|].
    reflexivity.
Qed.

(** After the commit of a row, [get] finds that row under its key and
    every other row as before. *)
Lemma get_commit db row key :
  get (commit db row) key
  = match get db key with
    | Some old => if String.eqb key (id row) then Some row else Some old
    | None => None
    end.
Proof.
  unfold get, commit. cbn [events]. rewrite find_commit.
  fold (get db key). destruct (get db key) as [old|] eqn:Hold; [|reflexivity].
  cbn [option_map]. apply get_found in Hold. rewrite Hold.
  now destruct (String.eqb key (id row)).
Qed.

Lemma commit_keys db row :
  map id (events (commit db row)) = map id (events db).
Proof.
  unfold commit. cbn [events]. rewrite map_map.
  apply map_ext_in. intros old _.
  destruct (String.eqb_spec (id old) (id row)) as [Heq|]; [now rewrite Heq|reflexivity].
Qed.

(** The commit of a row of a found event with the same key leaves the
    rest of the database alone. *)
Lemma commit_leaves_alone db uuid event row :
  get db uuid = Some event ->
  id row = uuid ->
  leaves_alone uuid db (Return (Some row), commit db row).
Proof.
  intros Hget Hid. unfold leaves_alone. cbn [fst snd].
  repeat split.
  - apply commit_keys.
  - intros other Hother. rewrite get_commit.
    destruct (get db other) as [old|]; [|reflexivity].
    rewrite Hid. destruct (String.eqb_spec other uuid); [contradiction|reflexivity].
  - intros Hnot. now contradiction (Hnot row).
  - intros ev [= <-]. rewrite get_commit, Hget, Hid, String.eqb_refl. reflexivity.
Qed.

Lemma unchanged_leaves_alone db uuid (r : Try (option Event)) :
  (forall event, r <> Return (Some event)) ->
  leaves_alone uuid db (r, db).
Proof.
  intros Hr. unfold leaves_alone. cbn [fst snd].
  repeat split. intros ev Hev. now contradiction (Hr ev).
Qed.

Lemma setattrs_same_booking event obj_in row :
  setattrs event obj_in = Some row -> same_booking event row.
Proof.
  unfold setattrs, same_booking.
  destruct (set_start_datetime obj_in) as [[?|]|];
    destruct (set_end_datetime obj_in) as [[?|]|];
    destruct (set_event_state obj_in) as [[?|]|];
    intros [= <-]; cbn; repeat split.
Qed.

Lemma update_leaves_alone db uuid obj_in :
  leaves_alone uuid db (update db uuid obj_in).
Proof.
  unfold update, crud_update.
  destruct (get db uuid) as [event|] eqn:Hget.
  - destruct (setattrs event obj_in) as [row|] eqn:Hset.
    + apply (commit_leaves_alone db uuid event row Hget).
      destruct (setattrs_same_booking event obj_in row Hset) as [-> _].
      now apply get_found in Hget.
    + apply unchanged_leaves_alone. discriminate.
  - apply unchanged_leaves_alone. discriminate.
Qed.

Lemma crud_confirm_leaves_alone db uuid :
  leaves_alone uuid db (crud_confirm_event db uuid).
Proof.
  unfold crud_confirm_event.
  destruct (get db uuid) as [event|] eqn:Hget.
  - apply (commit_leaves_alone db uuid event _ Hget). cbn [id].
    now apply get_found in Hget.
  - apply unchanged_leaves_alone. discriminate.
Qed.

Lemma update_state db uuid event state :
  get db uuid = Some event ->
  update db uuid (mkEventUpdate None None (Some (Some state)))
  = (Return (Some (with_state event state)), commit db (with_state event state)).
Proof. intros Hget. unfold update. rewrite Hget. reflexivity. Qed.

Lemma update_keeps_booking db uuid obj_in :
  keeps_booking uuid db (update db uuid obj_in).
Proof.
  unfold keeps_booking, update, crud_update. intros event event' Hget.
  rewrite Hget. destruct (setattrs event obj_in) as [row|] eqn:Hset;
    cbn [fst]; intros [= <-].
  now apply (setattrs_same_booking event obj_in).
Qed.

Lemma same_booking_refl event state :
  same_booking event (with_state event state).
Proof. unfold same_booking. cbn. repeat split. Qed.

Lemma lifecycle_frame_request uuid event_update_time user db clock :
  leaves_alone uuid db
               (fst (request_update_reservation_time
                       uuid event_update_time user db clock)).
Proof.
  unfold request_update_reservation_time, bind, ret, datetime_now.
  destruct (get db uuid) as [event|] eqn:Hget;
    [|apply unchanged_leaves_alone; discriminate].
  destruct (start_datetime event <? clock 0%nat);
    [apply unchanged_leaves_alone; discriminate|].
  destruct (EventState_eqb (event_state event) CANCELED);
    [apply unchanged_leaves_alone; discriminate|].
  destruct (EventState_eqb (event_state event) UPDATE_REQUESTED);
    [apply unchanged_leaves_alone; discriminate|].
  cbn [fst]. apply update_leaves_alone.
Qed.

(** X11. Each of the four operations on the event [uuid] keeps the keys of
    the events and their order, leaves every other event, the calendars
    and the reservation services as they were, changes nothing at all
    unless it returns the event, and returns the event that [get] then
    finds; the event returned is the booking that was there, with its
    purpose, guests, e-mail, user and calendar. *)
Theorem lifecycle_leaves_the_rest_alone :
  forall uuid user db clock event_update event_update_time,
    (leaves_alone uuid db (fst (cancel_event uuid user db clock))
     /\ keeps_booking uuid db (fst (cancel_event uuid user db clock)))
    /\ (leaves_alone uuid db
                     (fst (request_update_reservation_time
                             uuid event_update_time user db clock))
        /\ keeps_booking uuid db
                         (fst (request_update_reservation_time
                                 uuid event_update_time user db clock)))
    /\ (leaves_alone uuid db
                     (approve_update_reservation_time uuid event_update user db)
        /\ keeps_booking uuid db
                         (approve_update_reservation_time uuid event_update user db))
    /\ (leaves_alone uuid db (confirm_event uuid user db)
        /\ keeps_booking uuid db (confirm_event uuid user db)).
Proof.
  intros uuid user db clock event_update event_update_time.
  assert (Hquiet : forall r : Try (option Event),
             (forall event, r <> Return (Some event)) ->
             leaves_alone uuid db (r, db) /\ keeps_booking uuid db (r, db)).
  { intros r Hr. split; [now apply unchanged_leaves_alone|].
    intros event event' _ Hret. now contradiction (Hr event'). }
  split; [|split; [|split]].
  - unfold cancel_event, bind, ret, datetime_now.
    destruct (get db uuid) as [event|] eqn:Hget; [|apply Hquiet; discriminate].
    destruct (EventState_eqb (event_state event) CANCELED);
      [apply Hquiet; discriminate|].
    destruct (start_datetime event <? clock 0%nat); [apply Hquiet; discriminate|].
    destruct (get_reservation_service_of_this_event db event) as [rs|e];
      [|apply Hquiet; discriminate].
    destruct (andb _ _); [apply Hquiet; discriminate|].
    cbn [fst]. split; [apply update_leaves_alone | apply update_keeps_booking].
  - unfold request_update_reservation_time, bind, ret, datetime_now.
    destruct (get db uuid) as [event|] eqn:Hget; [|apply Hquiet; discriminate].
    destruct (start_datetime event <? clock 0%nat); [apply Hquiet; discriminate|].
    destruct (EventState_eqb (event_state event) CANCELED);
      [apply Hquiet; discriminate|].
    destruct (EventState_eqb (event_state event) UPDATE_REQUESTED);
      [apply Hquiet; discriminate|].
    cbn [fst]. split; [apply update_leaves_alone | apply update_keeps_booking].
  - unfold approve_update_reservation_time.
    destruct (get db uuid) as [event|] eqn:Hget; [|apply Hquiet; discriminate].
    destruct (EventState_eqb (event_state event) CANCELED);
      [apply Hquiet; discriminate|].
    destruct (get_reservation_service_of_this_event db event) as [rs|e];
      [|apply Hquiet; discriminate].
    destruct (negb _); [apply Hquiet; discriminate|].
    split; [apply update_leaves_alone | apply update_keeps_booking].
  - unfold confirm_event.
    destruct (get db uuid) as [event|] eqn:Hget; [|apply Hquiet; discriminate].
    destruct (negb (EventState_eqb (event_state event) NOT_APPROVED));
      [apply Hquiet; discriminate|].
    destruct (get_reservation_service_of_this_event db event) as [rs|e];
      [|apply Hquiet; discriminate].
    destruct (negb _); [apply Hquiet; discriminate|].
    split; [apply crud_confirm_leaves_alone|].
    unfold keeps_booking, crud_confirm_event. intros ev ev' Hev.
    rewrite Hev. cbn [fst]. intros [= <-]. unfold same_booking. cbn. repeat split.
Qed.

(** X12. A canceled booking stays as it is: each of the four operations on
    it raises and leaves the database unchanged. *)
Theorem canceled_is_final :
  forall uuid user db clock event_update event_update_time event,
    get db uuid = Some event ->
    event_state event = CANCELED ->
    fst (cancel_event uuid user db clock) = (Raise CancelCanceled, db)
    /\ (fst (request_update_reservation_time uuid event_update_time user db clock)
        = (Raise (if start_datetime event <? clock 0%nat
                  then ChangeAfterStart else ChangeCanceled), db))
    /\ approve_update_reservation_time uuid event_update user db
       = (Raise ChangeCanceled, db)
    /\ confirm_event uuid user db = (Raise ApproveNotNotApproved, db).
Proof.
  intros uuid user db clock event_update event_update_time event Hget Hstate.
  unfold cancel_event, request_update_reservation_time,
    approve_update_reservation_time, confirm_event, bind, ret, datetime_now.
  rewrite Hget, Hstate. cbn [EventState_eqb negb fst].
  repeat split. destruct (start_datetime event <? clock 0%nat); reflexivity.
Qed.

End BookingLifecycle.

Section BookingLifecycleTransitions.
Import Models EventLifecycle.

Lemma EventState_eqb_eq a b : EventState_eqb a b = true <-> a = b.
Proof. destruct a, b; cbn; split; intros; try reflexivity; discriminate. Qed.

Lemma EventState_eqb_neq a b : EventState_eqb a b = false <-> a <> b.
Proof. destruct a, b; cbn; split; intros; congruence. Qed.

Lemma cancel_event_pair :
  forall uuid user db clock event',
    fst (cancel_event uuid user db clock)
    = (Return (Some event'), commit db event')
    <->
    exists event reservation_service,
      get db uuid = Some event
      /\ event_state event <> CANCELED
      /\ clock 0%nat <= start_datetime event
      /\ get_reservation_service_of_this_event db event = Return reservation_service
      /\ (user_id event = requester_id user
          \/ string_in (alias reservation_service) (roles (requester user)) = true)
      /\ event' = with_state event CANCELED.
Proof.
  intros uuid user db clock event'.
  unfold cancel_event, bind, ret, datetime_now.
  destruct (get db uuid) as [event|] eqn:Hget;
    [|split; [discriminate | intros (ev & rs & [=] & _)]].
  destruct (EventState_eqb (event_state event) CANCELED) eqn:Hstate.
  { apply EventState_eqb_eq in Hstate.
    split; [discriminate | intros (ev & rs & [= <-] & Hne & _); contradiction]. }
  apply EventState_eqb_neq in Hstate.
  destruct (Z.ltb_spec (start_datetime event) (clock 0%nat)) as [Hlate|Hearly].
  { split; [discriminate | intros (ev & rs & [= <-] & _ & Hs & _); lia]. }
  destruct (get_reservation_service_of_this_event db event) as [rs|e] eqn:Hrs.
  2:{ split; [discriminate | intros (ev & rs & [= <-] & _ & _ & Hrs' & _)].
      rewrite Hrs in Hrs'. discriminate. }
  destruct (Z.eqb_spec (user_id event) (requester_id user)) as [Hown|Hother];
    cbn [negb andb].
  - rewrite (update_state db uuid event CANCELED Hget). cbn [fst]. split.
    + intros [= <-]. exists event, rs. auto 10.
    + intros (ev & rs' & [= <-] & _ & _ & _ & _ & ->). reflexivity.
  - destruct (string_in (alias rs) (roles (requester user))) eqn:Hrole; cbn [negb].
    + rewrite (update_state db uuid event CANCELED Hget). cbn [fst]. split.
      * intros [= <-]. exists event, rs. auto 10.
      * intros (ev & rs' & [= <-] & _ & _ & _ & _ & ->). reflexivity.
    + split; [discriminate|].
      intros (ev & rs' & [= <-] & _ & _ & Hrs' & [Hu|Hr] & _); [contradiction|].
      rewrite Hrs in Hrs'. injection Hrs' as <-. congruence.
Qed.

Lemma confirm_event_pair :
  forall uuid user db event',
    confirm_event uuid user db = (Return (Some event'), commit db event')
    <->
    exists event,
      get db uuid = Some event
      /\ event_state event = NOT_APPROVED
      /\ manages db user event
      /\ event' = with_state event CONFIRMED.
Proof.
  intros uuid user db event'. unfold confirm_event, manages.
  destruct (get db uuid) as [event|] eqn:Hget;
    [|split; [discriminate | intros (ev & [=] & _)]].
  destruct (EventState_eqb (event_state event) NOT_APPROVED) eqn:Hstate; cbn [negb].
  2:{ apply EventState_eqb_neq in Hstate.
      split; [discriminate | intros (ev & [= <-] & Hs & _); contradiction]. }
  apply EventState_eqb_eq in Hstate.
  destruct (get_reservation_service_of_this_event db event) as [rs|e] eqn:Hrs.
  2:{ split; [discriminate | intros (ev & [= <-] & _ & (rs & Hrs' & _) & _)].
      rewrite Hrs in Hrs'. discriminate. }
  destruct (string_in (alias rs) (roles (requester user))) eqn:Hrole; cbn [negb].
  - unfold crud_confirm_event. rewrite Hget.
    change (mkEvent (id event) (purpose event) (guests event) (email event)
                    (start_datetime event) (end_datetime event) CONFIRMED
                    (user_id event) (calendar_id event))
      with (with_state event CONFIRMED).
    split.
    + intros [= <-]. exists event. repeat split; auto. exists rs. auto.
    + intros (ev & [= <-] & _ & _ & ->). reflexivity.
  - split; [discriminate|].
    intros (ev & [= <-] & _ & (rs' & Hrs' & Hrole') & _).
    rewrite Hrs in Hrs'. injection Hrs' as <-. congruence.
Qed.

Lemma request_update_pair :
  forall uuid event_update user db clock event',
    fst (request_update_reservation_time uuid event_update user db clock)
    = (Return (Some event'), commit db event')
    <->
    exists event a b,
      get db uuid = Some event
      /\ clock 0%nat <= start_datetime event
      /\ (event_state event = NOT_APPROVED \/ event_state event = CONFIRMED)
      /\ new_start_datetime event_update = Some a
      /\ new_end_datetime event_update = Some b
      /\ event' = with_state (with_times event a b) UPDATE_REQUESTED.
Proof.
  intros uuid event_update user db clock event'.
  unfold request_update_reservation_time, bind, ret, datetime_now.
  destruct (get db uuid) as [event|] eqn:Hget;
    [|split; [discriminate | intros (ev & a & b & [=] & _)]].
  destruct (Z.ltb_spec (start_datetime event) (clock 0%nat)) as [Hlate|Hearly].
  { split; [discriminate | intros (ev & a & b & [= <-] & Hs & _); lia]. }
  destruct (event_state event) eqn:Hstate; cbn [EventState_eqb fst];
    try (split; [discriminate
                | intros (ev & a & b & [= <-] & _ & [Hs|Hs] & _);
                  rewrite Hstate in Hs; discriminate]).
  - unfold update, crud_update. rewrite Hget. unfold setattrs.
    cbn [set_start_datetime set_end_datetime set_event_state].
    destruct (new_start_datetime event_update) as [a|];
      destruct (new_end_datetime event_update) as [b|];
      try (split; [discriminate
                  | intros (ev & a' & b' & _ & _ & _ & Ha & Hb & _); discriminate]).
    split.
    + intros [= <-]. exists event, a, b. rewrite Hstate.
      repeat split; auto.
    + intros (ev & a' & b' & [= <-] & _ & _ & [= <-] & [= <-] & ->).
      unfold with_state, with_times. cbn. reflexivity.
  - unfold update, crud_update. rewrite Hget. unfold setattrs.
    cbn [set_start_datetime set_end_datetime set_event_state].
    destruct (new_start_datetime event_update) as [a|];
      destruct (new_end_datetime event_update) as [b|];
      try (split; [discriminate
                  | intros (ev & a' & b' & _ & _ & _ & Ha & Hb & _); discriminate]).
    split.
    + intros [= <-]. exists event, a, b. rewrite Hstate.
      repeat split; auto.
    + intros (ev & a' & b' & [= <-] & _ & _ & [= <-] & [= <-] & ->).
      unfold with_state, with_times. cbn. reflexivity.
Qed.

(** X16. Once a request was taken, a further request for the same booking is
    refused, whoever makes it, whatever the times and the clock, and
    the database stays as the first request left it. *)
Theorem second_request_refused :
  forall uuid event_update user db clock event' db',
    fst (request_update_reservation_time uuid event_update user db clock)
    = (Return (Some event'), db') ->
    forall event_update2 user2 clock2,
      fst (request_update_reservation_time uuid event_update2 user2 db' clock2)
      = (Raise (if start_datetime event' <? clock2 0%nat
                then ChangeAfterStart else ChangeUpdateRequested), db').
Proof.
  intros uuid event_update user db clock event' db' Hfirst
         event_update2 user2 clock2.
  assert (Hget' : get db' uuid = Some event').
  { destruct (lifecycle_frame_request uuid event_update user db clock)
      as (_ & _ & _ & _ & _ & Hread).
    rewrite Hfirst in Hread. now apply Hread. }
  assert (Hstate : event_state event' = UPDATE_REQUESTED).
  { revert Hfirst.
    unfold request_update_reservation_time, bind, ret, datetime_now.
    destruct (get db uuid) as [event|]; [|discriminate].
    destruct (start_datetime event <? clock 0%nat); [discriminate|].
    destruct (EventState_eqb (event_state event) CANCELED); [discriminate|].
    destruct (EventState_eqb (event_state event) UPDATE_REQUESTED); [discriminate|].
    unfold update, crud_update. cbn [fst].
    destruct (get db uuid) as [event0|]; [|discriminate].
    unfold setattrs. cbn [set_start_datetime set_end_datetime set_event_state].
    destruct (new_start_datetime event_update);
      destruct (new_end_datetime event_update); intros [= <- _]; reflexivity. }
  unfold request_update_reservation_time, bind, ret, datetime_now.
  rewrite Hget', Hstate. cbn [EventState_eqb fst].
  destruct (start_datetime event' <? clock2 0%nat); reflexivity.
Qed.

Lemma update_returns db uuid obj_in row :
  fst (update db uuid obj_in) = Return (Some row) ->
  snd (update db uuid obj_in) = commit db row.
Proof.
  unfold update, crud_update. destruct (get db uuid) as [event|]; [|discriminate].
  destruct (setattrs event obj_in); cbn [fst snd]; [|discriminate].
  now intros [= ->].
Qed.

Lemma cancel_event_commits uuid user db clock event' :
  fst (fst (cancel_event uuid user db clock)) = Return (Some event') ->
  fst (cancel_event uuid user db clock) = (Return (Some event'), commit db event').
Proof.
  unfold cancel_event, bind, ret, datetime_now.
  destruct (get db uuid) as [event|]; [|discriminate].
  destruct (EventState_eqb (event_state event) CANCELED); [discriminate|].
  destruct (start_datetime event <? clock 0%nat); [discriminate|].
  destruct (get_reservation_service_of_this_event db event); [|discriminate].
  destruct (andb _ _); [discriminate|].
  cbn [fst]. intros H. rewrite (surjective_pairing (update _ _ _)).
  now rewrite (update_returns _ _ _ _ H), H.
Qed.

Lemma request_update_commits uuid event_update user db clock event' :
  fst (fst (request_update_reservation_time uuid event_update user db clock))
  = Return (Some event') ->
  fst (request_update_reservation_time uuid event_update user db clock)
  = (Return (Some event'), commit db event').
Proof.
  unfold request_update_reservation_time, bind, ret, datetime_now.
  destruct (get db uuid) as [event|]; [|discriminate].
  destruct (start_datetime event <? clock 0%nat); [discriminate|].
  destruct (EventState_eqb (event_state event) CANCELED); [discriminate|].
  destruct (EventState_eqb (event_state event) UPDATE_REQUESTED); [discriminate|].
  cbn [fst]. intros H. rewrite (surjective_pairing (update _ _ _)).
  now rewrite (update_returns _ _ _ _ H), H.
Qed.

Lemma confirm_event_commits uuid user db event' :
  fst (confirm_event uuid user db) = Return (Some event') ->
  confirm_event uuid user db = (Return (Some event'), commit db event').
Proof.
  unfold confirm_event.
  destruct (get db uuid) as [event|] eqn:Hget; [|discriminate].
  destruct (negb (EventState_eqb (event_state event) NOT_APPROVED)); [discriminate|].
  destruct (get_reservation_service_of_this_event db event); [|discriminate].
  destruct (negb _); [discriminate|].
  unfold crud_confirm_event. rewrite Hget. cbn [fst]. now intros [= <-].
Qed.

Lemma approve_update_commits uuid event_update user db event' :
  fst (approve_update_reservation_time uuid event_update user db)
  = Return (Some event') ->
  approve_update_reservation_time uuid event_update user db
  = (Return (Some event'), commit db event').
Proof.
  unfold approve_update_reservation_time.
  destruct (get db uuid) as [event|]; [|discriminate].
  destruct (EventState_eqb (event_state event) CANCELED); [discriminate|].
  destruct (get_reservation_service_of_this_event db event); [|discriminate].
  destruct (negb _); [discriminate|].
  intros H. rewrite (surjective_pairing (update _ _ _)).
  now rewrite (update_returns _ _ _ _ H), H.
Qed.

(** X13. [cancel_event] cancels exactly a booking that is there, is not
    canceled yet, has not started by the clock, whose calendar and
    reservation service are there, on behalf of its own user or of a
    manager of the service: the booking is returned in the state
    [CANCELED], its times unchanged, and committed. *)
Theorem cancel_event_succeeds_iff :
  forall uuid user db clock event',
    (fst (fst (cancel_event uuid user db clock)) = Return (Some event')
     <->
     exists event reservation_service,
       get db uuid = Some event
       /\ event_state event <> CANCELED
       /\ clock 0%nat <= start_datetime event
       /\ get_reservation_service_of_this_event db event = Return reservation_service
       /\ (user_id event = requester_id user
           \/ string_in (alias reservation_service) (roles (requester user)) = true)
       /\ event' = with_state event CANCELED)
    /\ (fst (fst (cancel_event uuid user db clock)) = Return (Some event') ->
        snd (fst (cancel_event uuid user db clock)) = commit db event').
Proof.
  intros uuid user db clock event'. split.
  - rewrite <- cancel_event_pair. split.
    + apply cancel_event_commits.
    + now intros ->.
  - intros H. now rewrite (cancel_event_commits _ _ _ _ _ H).
Qed.

(** X14. [confirm_event] confirms exactly a booking that is there and is not
    approved, on behalf of a manager of its service: the user of the
    booking cannot confirm it without that role. *)
Theorem confirm_event_succeeds_iff :
  forall uuid user db event',
    (fst (confirm_event uuid user db) = Return (Some event')
     <->
     exists event,
       get db uuid = Some event
       /\ event_state event = NOT_APPROVED
       /\ manages db user event
       /\ event' = with_state event CONFIRMED)
    /\ (fst (confirm_event uuid user db) = Return (Some event') ->
        snd (confirm_event uuid user db) = commit db event').
Proof.
  intros uuid user db event'. split.
  - rewrite <- confirm_event_pair. split.
    + apply confirm_event_commits.
    + now intros ->.
  - intros H. now rewrite (confirm_event_commits _ _ _ _ H).
Qed.

(** X15. [request_update_reservation_time] takes the request exactly for a
    booking that is there, has not started by the clock, is neither
    canceled nor waiting for an update already, when both new times are
    given: the booking gets the new times and the state
    [UPDATE_REQUESTED].  Whose booking it is, is not looked at, nor are
    the new times checked in any way. *)
Theorem request_update_succeeds_iff :
  forall uuid event_update user db clock event',
    (fst (fst (request_update_reservation_time uuid event_update user db clock))
     = Return (Some event')
     <->
     exists event a b,
       get db uuid = Some event
       /\ clock 0%nat <= start_datetime event
       /\ (event_state event = NOT_APPROVED \/ event_state event = CONFIRMED)
       /\ new_start_datetime event_update = Some a
       /\ new_end_datetime event_update = Some b
       /\ event' = with_state (with_times event a b) UPDATE_REQUESTED)
    /\ (fst (fst (request_update_reservation_time uuid event_update user db clock))
        = Return (Some event') ->
        snd (fst (request_update_reservation_time uuid event_update user db clock))
        = commit db event').
Proof.
  intros uuid event_update user db clock event'. split.
  - rewrite <- request_update_pair. split.
    + apply request_update_commits.
    + now intros ->.
  - intros H. now rewrite (request_update_commits _ _ _ _ _ _ H).
Qed.

(** X17. [approve_update_reservation_time] applies the update exactly to a
    booking that is there and is not canceled, on behalf of a manager of
    its service, when no field of the update is set to [None]; the
    booking need not be waiting for an update.  The fields that the
    update sets are written, the others keep their values. *)
Theorem approve_update_succeeds_iff :
  forall uuid event_update user db event',
    (fst (approve_update_reservation_time uuid event_update user db)
     = Return (Some event')
     <->
     exists event,
       get db uuid = Some event
       /\ event_state event <> CANCELED
       /\ manages db user event
       /\ setattrs event event_update = Some event')
    /\ (fst (approve_update_reservation_time uuid event_update user db)
        = Return (Some event') ->
        snd (approve_update_reservation_time uuid event_update user db)
        = commit db event')
    /\ (forall event,
           setattrs event event_update = Some event' ->
           start_datetime event'
           = match set_start_datetime event_update with
             | Some (Some a) => a
             | _ => start_datetime event
             end
           /\ end_datetime event'
              = match set_end_datetime event_update with
                | Some (Some b) => b
                | _ => end_datetime event
                end
           /\ event_state event'
              = match set_event_state event_update with
                | Some (Some state) => state
                | _ => event_state event
                end).
Proof.
  intros uuid event_update user db event'. split; [|split].
  - unfold approve_update_reservation_time, manages.
    destruct (get db uuid) as [event|] eqn:Hget;
      [|split; [discriminate | intros (ev & [=] & _)]].
    destruct (EventState_eqb (event_state event) CANCELED) eqn:Hstate.
    { apply EventState_eqb_eq in Hstate.
      split; [discriminate | intros (ev & [= <-] & Hne & _); contradiction]. }
    apply EventState_eqb_neq in Hstate.
    destruct (get_reservation_service_of_this_event db event) as [rs|e] eqn:Hrs.
    2:{ split; [discriminate | intros (ev & [= <-] & _ & (rs & Hrs' & _) & _)].
        rewrite Hrs in Hrs'. discriminate. }
    destruct (string_in (alias rs) (roles (requester user))) eqn:Hrole; cbn [negb].
    + unfold update, crud_update. rewrite Hget.
      destruct (setattrs event event_update) as [row|] eqn:Hset; cbn [fst].
      * split.
        -- intros [= <-]. exists event. repeat split; auto. exists rs. auto.
        -- intros (ev & [= <-] & _ & _ & Hset'). rewrite Hset in Hset'.
           now injection Hset' as <-.
      * split; [discriminate|].
        intros (ev & [= <-] & _ & _ & Hset'). rewrite Hset in Hset'. discriminate.
    + split; [discriminate|].
      intros (ev & [= <-] & _ & (rs' & Hrs' & Hrole') & _).
      rewrite Hrs in Hrs'. injection Hrs' as <-. congruence.
  - intros H. now rewrite (approve_update_commits _ _ _ _ _ H).
  - intros event. unfold setattrs.
    destruct (set_start_datetime event_update) as [[?|]|];
      destruct (set_end_datetime event_update) as [[?|]|];
      destruct (set_event_state event_update) as [[?|]|];
      intros [= <-]; cbn; repeat split.
Qed.

End BookingLifecycleTransitions.

(** ** The life of a booking on the sample data *)

Import Models EventLifecycle LifecycleSample.

Lemma canceled_is_final_witness :
  fst (cancel_event "event-1" owner (database CANCELED) clock)
  = (Raise CancelCanceled, database CANCELED)
  /\ fst (request_update_reservation_time "event-1" to_the_next_day owner
                                          (database CANCELED) clock)
     = (Raise ChangeCanceled, database CANCELED)
  /\ approve_update_reservation_time
       "event-1" (mkEventUpdate None None (Some (Some CONFIRMED))) manager
       (database CANCELED)
     = (Raise ChangeCanceled, database CANCELED)
  /\ confirm_event "event-1" manager (database CANCELED)
     = (Raise ApproveNotNotApproved, database CANCELED).
Proof.
  destruct (canceled_is_final
              "event-1" owner (database CANCELED) clock
              (mkEventUpdate None None (Some (Some CONFIRMED))) to_the_next_day
              (booking CANCELED) eq_refl eq_refl) as (H1 & H2 & _ & H4).
  destruct (canceled_is_final
              "event-1" manager (database CANCELED) clock
              (mkEventUpdate None None (Some (Some CONFIRMED))) to_the_next_day
              (booking CANCELED) eq_refl eq_refl) as (_ & _ & H3 & H4').
  split; [exact H1|split; [exact H2|split; [exact H3|exact H4']]].
Defined.

Lemma second_request_refused_witness :
  let requested :=
    with_state (with_times (booking CONFIRMED) (at_day 104 11 0) (at_day 104 16 0))
               UPDATE_REQUESTED in
  fst (request_update_reservation_time
         "event-1" (mkEventUpdateTime (Some (at_day 105 11 0)) (Some (at_day 105 16 0)))
         stranger (commit (database CONFIRMED) requested) clock)
  = (Raise ChangeUpdateRequested, commit (database CONFIRMED) requested).
Proof.
  intros requested.
  exact (second_request_refused
           "event-1" to_the_next_day owner (database CONFIRMED) clock requested
           (commit (database CONFIRMED) requested) eq_refl
           (mkEventUpdateTime (Some (at_day 105 11 0)) (Some (at_day 105 16 0)))
           stranger clock).
Defined.

(** The user of the booking cancels it; a stranger may not; the manager
    confirms a booking that is not approved, its user may not. *)
Example owner_cancels_stranger_does_not :
  fst (cancel_event "event-1" owner (database CONFIRMED) clock)
  = (Return (Some (booking CANCELED)), database CANCELED)
  /\ fst (cancel_event "event-1" stranger (database CONFIRMED) clock)
     = (Raise PermissionDeniedCancel, database CONFIRMED)
  /\ confirm_event "event-1" manager (database NOT_APPROVED)
     = (Return (Some (booking CONFIRMED)), database CONFIRMED)
  /\ confirm_event "event-1" owner (database NOT_APPROVED)
     = (Raise (PermissionDeniedApprove "Game room"), database NOT_APPROVED).
Proof. repeat split. Qed.

Lemma cancel_event_succeeds_iff_witness :
  fst (fst (cancel_event "event-1" owner (database CONFIRMED) clock))
  = Return (Some (with_state (booking CONFIRMED) CANCELED))
  /\ snd (fst (cancel_event "event-1" owner (database CONFIRMED) clock))
     = commit (database CONFIRMED) (with_state (booking CONFIRMED) CANCELED).
Proof.
  destruct (cancel_event_succeeds_iff
              "event-1" owner (database CONFIRMED) clock
              (with_state (booking CONFIRMED) CANCELED)) as [[_ Hif] Hcommit].
  assert (H : fst (fst (cancel_event "event-1" owner (database CONFIRMED) clock))
              = Return (Some (with_state (booking CONFIRMED) CANCELED))).
  { apply Hif. exists (booking CONFIRMED), game.
    split; [reflexivity|]. split; [discriminate|].
    split; [vm_compute; discriminate|]. split; [reflexivity|].
    split; [left; reflexivity | reflexivity]. }
  split; [exact H | exact (Hcommit H)].
Defined.

Lemma confirm_event_succeeds_iff_witness :
  fst (confirm_event "event-1" manager (database NOT_APPROVED))
  = Return (Some (with_state (booking NOT_APPROVED) CONFIRMED))
  /\ snd (confirm_event "event-1" manager (database NOT_APPROVED))
     = commit (database NOT_APPROVED) (with_state (booking NOT_APPROVED) CONFIRMED).
Proof.
  destruct (confirm_event_succeeds_iff
              "event-1" manager (database NOT_APPROVED)
              (with_state (booking NOT_APPROVED) CONFIRMED)) as [[_ Hif] Hcommit].
  assert (H : fst (confirm_event "event-1" manager (database NOT_APPROVED))
              = Return (Some (with_state (booking NOT_APPROVED) CONFIRMED))).
  { apply Hif. exists (booking NOT_APPROVED).
    split; [reflexivity|]. split; [reflexivity|].
    split; [|reflexivity]. exists game. split; reflexivity. }
  split; [exact H | exact (Hcommit H)].
Defined.

Lemma request_update_succeeds_iff_witness :
  let requested :=
    with_state (with_times (booking CONFIRMED) (at_day 104 11 0) (at_day 104 16 0))
               UPDATE_REQUESTED in
  fst (fst (request_update_reservation_time
              "event-1" to_the_next_day owner (database CONFIRMED) clock))
  = Return (Some requested)
  /\ snd (fst (request_update_reservation_time
                 "event-1" to_the_next_day owner (database CONFIRMED) clock))
     = commit (database CONFIRMED) requested.
Proof.
  intros requested.
  destruct (request_update_succeeds_iff
              "event-1" to_the_next_day owner (database CONFIRMED) clock requested)
    as [[_ Hif] Hcommit].
  assert (H : fst (fst (request_update_reservation_time
                          "event-1" to_the_next_day owner (database CONFIRMED) clock))
              = Return (Some requested)).
  { apply Hif. exists (booking CONFIRMED), (at_day 104 11 0), (at_day 104 16 0).
    split; [reflexivity|]. split; [vm_compute; discriminate|].
    split; [right; reflexivity|]. repeat split. }
  split; [exact H | exact (Hcommit H)].
Defined.

Lemma approve_update_succeeds_iff_witness :
  let declined :=
    mkEventUpdate (Some (Some (at_day 103 11 0))) (Some (Some (at_day 103 16 0)))
                  (Some (Some CONFIRMED)) in
  let requested :=
    with_state (with_times (booking CONFIRMED) (at_day 104 11 0) (at_day 104 16 0))
               UPDATE_REQUESTED in
  fst (approve_update_reservation_time
         "event-1" declined manager (commit (database CONFIRMED) requested))
  = Return (Some (booking CONFIRMED))
  /\ snd (approve_update_reservation_time
            "event-1" declined manager (commit (database CONFIRMED) requested))
     = commit (commit (database CONFIRMED) requested) (booking CONFIRMED).
Proof.
  intros declined requested.
  destruct (approve_update_succeeds_iff
              "event-1" declined manager (commit (database CONFIRMED) requested)
              (booking CONFIRMED)) as [[_ Hif] [Hcommit _]].
  assert (H : fst (approve_update_reservation_time
                     "event-1" declined manager
                     (commit (database CONFIRMED) requested))
              = Return (Some (booking CONFIRMED))).
  { apply Hif. exists requested.
    split; [reflexivity|]. split; [discriminate|].
    split; [|reflexivity]. exists game. split; reflexivity. }
  split; [exact H | exact (Hcommit H)].
Defined.
